(** * Litra driver: protocol layer of [src/driver.ts]

    A shallow embedding of the command operations of the driver and the
    properties of its specification that concern them.

    - JavaScript numbers are modelled by [number]: exact rationals for the
      finite values, plus [NaN] and the two infinities.  Arithmetic on the
      finite values is exact (no binary rounding).
    - The HID transport is a recording collaborator: [write] appends the
      frame to a log, [readSync] returns the next response of the device
      and logs it.  It is threaded through the operations by a state and
      exception monad [M]; a JavaScript [throw] keeps the transport state
      it was raised in.
    - The four helpers that the driver imports from [utils.ts] are
      modelled from the specification (module [Utils]).
    - Device discovery ([findDevice], [findDevices]) takes the descriptors
      that [HID.devices()] enumerates as its argument, and opening a path
      is taken to succeed.
    - The channels of [setRGBColor] are taken as integers. *)

From Stdlib Require Import ZArith QArith Qround List String Bool Lia Lqa.
From Stdlib Require Import DecimalString Sorted.
Import ListNotations.

Local Open Scope Z_scope.

(** ** JavaScript numbers *)

Module JsNumber.

Inductive number : Type :=
| Fin (q : Q)
| NaN
| PosInfinity
| NegInfinity.

Definition of_Z (z : Z) : number := Fin (inject_Z z).

(** [Number.isInteger]: a finite value without fractional part. *)
Definition isInteger (x : number) : bool :=
  match x with
  | Fin q => Qeq_bool (inject_Z (Qfloor q)) q
  | _ => false
  end.

(** The integer an integral number stands for (its floor otherwise).
    The setters pass a number to [integerToBytes] only after
    [Number.isInteger] accepted it. *)
Definition integerValue (x : number) : Z :=
  match x with
  | Fin q => Qfloor q
  | _ => 0
  end.

(** [x < y] *)
Definition lt (x y : number) : bool :=
  match x, y with
  | NaN, _ | _, NaN => false
  | Fin p, Fin q => negb (Qle_bool q p)
  | NegInfinity, NegInfinity => false
  | NegInfinity, _ => true
  | _, NegInfinity => false
  | PosInfinity, _ => false
  | Fin _, PosInfinity => true
  end.

(** [x > y] *)
Definition gt (x y : number) : bool := lt y x.

(** [x === y] on numbers. *)
Definition strictEq (x y : number) : bool :=
  match x, y with
  | Fin p, Fin q => Qeq_bool p q
  | PosInfinity, PosInfinity => true
  | NegInfinity, NegInfinity => true
  | _, _ => false
  end.

(** SameValueZero, the comparison of [Array.prototype.includes]. *)
Definition sameValueZero (x y : number) : bool :=
  match x, y with
  | NaN, NaN => true
  | _, _ => strictEq x y
  end.

(** [array.includes(x)] for an array of integers. *)
Definition includes (array : list Z) (x : number) : bool :=
  existsb (fun a => sameValueZero (of_Z a) x) array.

(** [`${z}`] for an integer. *)
Definition toString (z : Z) : string :=
  NilZero.string_of_int (Z.to_int z).

(** [isZ x n]: the number [x] is the integer [n]. *)
Definition isZ (x : number) (n : Z) : Prop :=
  match x with
  | Fin q => q == inject_Z n
  | _ => False
  end.

(** [`${x}`] where [x] may be [undefined]. *)
Definition toStringOpt (x : option Z) : string :=
  match x with
  | Some z => toString z
  | None => "undefined"
  end.

End JsNumber.
Import JsNumber.

(** ** Completions and the transport monad *)

Inductive completion (A : Type) : Type :=
| Normal (value : A)
| Throw (message : string).
Arguments Normal {A} value.
Arguments Throw {A} message.

Inductive event : Type :=
| Written (values : list Z)
| ReadSync (data : list Z).

(** The state of [device.hid]: what the device will answer to the
    [n]-th read, how many reads were made, and the log of the calls. *)
Record HID : Type := mkHID {
  responses : nat -> list Z;
  reads : nat;
  log : list event
}.

Definition M (A : Type) : Type := HID -> completion A * HID.

Definition ret {A} (a : A) : M A := fun h => (Normal a, h).

Definition throw {A} (message : string) : M A := fun h => (Throw message, h).

Definition bind {A B} (m : M A) (k : A -> M B) : M B :=
  fun h =>
    match m h with
    | (Normal a, h') => k a h'
    | (Throw message, h') => (Throw message, h')
    end.

Declare Scope hid_scope.
Delimit Scope hid_scope with hid.
Notation "x <- m ;; k" := (bind m (fun x => k))
  (at level 100, m at next level, right associativity) : hid_scope.
Notation "m ;; k" := (bind m (fun _ => k))
  (at level 100, right associativity) : hid_scope.
Local Open Scope hid_scope.

(** Lifts a pure completion (a helper that may throw) into [M]. *)
Definition lift {A} (c : completion A) : M A := fun h => (c, h).

(** [device.hid.write(values)]: returns the number of bytes written. *)
Definition hid_write (values : list Z) : M Z :=
  fun h =>
    (Normal (Z.of_nat (List.length values)),
     mkHID (responses h) (reads h) (log h ++ [Written values])).

(** [device.hid.readSync()] *)
Definition hid_readSync : M (list Z) :=
  fun h =>
    let data := responses h (reads h) in
    (Normal data, mkHID (responses h) (S (reads h)) (log h ++ [ReadSync data])).

(** ** Helpers of [utils.ts] *)

Module Utils.

(** Modelled from the spec: [padRight] of [utils.ts] is missing.  The
    spec's frame encoding right-pads the given bytes with the padding
    byte to the fixed length, and fails if they exceed that length. *)
Definition padRight (array : list Z) (length : nat) (padding : Z)
  : completion (list Z) :=
  if (length <? List.length array)%nat
  then Throw "The provided array is longer than the frame length"
  else Normal (array ++ repeat padding (length - List.length array)).

(** Modelled from the spec: [integerToBytes] of [utils.ts] is missing.
    The spec's integer-to-bytes conversion gives the two-byte big-endian
    representation: high byte = integer div 256, low byte = integer
    mod 256. *)
Definition integerToBytes (integer : Z) : list Z :=
  [integer / 256; integer mod 256].

(** The integers [low], [low + 1], ..., [high]. *)
Definition integersBetween (low high : Z) : list Z :=
  map (fun k => low + Z.of_nat k) (seq 0 (Z.to_nat (high - low + 1))).

(** Modelled from the spec: [multiplesWithinRange] of [utils.ts] is
    missing.  The spec's temperature generation algorithm: given a step,
    an inclusive lower bound and an inclusive upper bound, the ascending
    sequence of all integers in range that are exact multiples of the
    step. *)
Definition multiplesWithinRange (multiplesOf startRange endRange : Z)
  : list Z :=
  filter (fun i => i mod multiplesOf =? 0)
         (integersBetween startRange endRange).

(** Nearest integer, ties away from zero. *)
Definition roundNearest (q : Q) : Z :=
  if Qle_bool 0 q then Qfloor (q + (1 # 2)) else Qceiling (q - (1 # 2)).

(** Modelled from the spec: [percentageWithinRange] of [utils.ts] is
    missing.  The spec's percentage-to-absolute scaling is
    [min + (percentage/100) * (max-min)] rounded to the nearest integer,
    ties away from zero.  [NaN] and the infinities propagate as in
    IEEE arithmetic. *)
Definition percentageWithinRange
  (percentage : number) (startRange endRange : Z) : number :=
  match percentage with
  | Fin p =>
      of_Z (roundNearest
              (inject_Z startRange
               + (p / inject_Z 100) * inject_Z (endRange - startRange)))
  | NaN => NaN
  | PosInfinity =>
      match endRange ?= startRange with
      | Gt => PosInfinity
      | Lt => NegInfinity
      | Eq => NaN
      end
  | NegInfinity =>
      match endRange ?= startRange with
      | Gt => NegInfinity
      | Lt => PosInfinity
      | Eq => NaN
      end
  end.

End Utils.
Import Utils.

(** ** The driver *)

Inductive DeviceType : Type :=
| LitraGlow
| LitraBeam.

Definition VENDOR_ID : Z := 0x046d.

Definition PRODUCT_IDS : list Z :=
  [ 0xc900  (* Litra Glow *)
  ; 0xc901  (* Litra Beam *)
  ; 0xb901  (* Litra Beam *)
  ; 0xc903  (* Litra Beam LX *)
  ].

Definition USAGE_PAGE : Z := 0xff43.

Definition MINIMUM_BRIGHTNESS_IN_LUMEN_BY_DEVICE_TYPE (t : DeviceType) : Z :=
  match t with
  | LitraGlow => 20
  | LitraBeam => 30
  end.

Definition MAXIMUM_BRIGHTNESS_IN_LUMEN_BY_DEVICE_TYPE (t : DeviceType) : Z :=
  match t with
  | LitraGlow => 250
  | LitraBeam => 400
  end.

Definition MULTIPLES_OF_100_BETWEEN_2700_AND_6500 : list Z :=
  multiplesWithinRange 100 2700 6500.

Definition ALLOWED_TEMPERATURES_IN_KELVIN_BY_DEVICE_TYPE (t : DeviceType)
  : list Z :=
  match t with
  | LitraGlow => MULTIPLES_OF_100_BETWEEN_2700_AND_6500
  | LitraBeam => MULTIPLES_OF_100_BETWEEN_2700_AND_6500
  end.

Definition NAME_BY_DEVICE_TYPE (t : DeviceType) : string :=
  match t with
  | LitraGlow => "Logitech Litra Glow"
  | LitraBeam => "Logitech Litra Beam"
  end.

(** The [hid] field of a device is the mutable transport object; its
    state is the state of the monad [M]. *)
Record Device : Type := mkDevice {
  type : DeviceType;
  serialNumber : string
}.

(** The fields of a [node-hid] descriptor that the driver reads. *)
Record HIDDevice : Type := mkHIDDevice {
  vendorId : number;
  productId : number;
  usagePage : number;
  path : string;
  hidSerialNumber : string  (* [serialNumber] of the descriptor *)
}.

Definition isLitraDevice (device : HIDDevice) : bool :=
  strictEq (vendorId device) (of_Z VENDOR_ID)
  && includes PRODUCT_IDS (productId device)
  && strictEq (usagePage device) (of_Z USAGE_PAGE).

(** [x === array[i]]; an index out of range reads [undefined], which no
    number is equal to. *)
Definition strictEqAt (x : number) (array : list Z) (i : nat) : bool :=
  match nth_error array i with
  | Some a => strictEq x (of_Z a)
  | None => false
  end.

Definition getDeviceTypeByProductId (productId : number)
  : completion DeviceType :=
  if strictEqAt productId PRODUCT_IDS 0 then Normal LitraGlow
  else if strictEqAt productId PRODUCT_IDS 1
          || strictEqAt productId PRODUCT_IDS 2
          || strictEqAt productId PRODUCT_IDS 3
       then Normal LitraBeam
  else Throw "Unknown device type".

Definition getMinimumBrightnessInLumenForDevice (device : Device) : Z :=
  MINIMUM_BRIGHTNESS_IN_LUMEN_BY_DEVICE_TYPE (type device).

Definition getMaximumBrightnessInLumenForDevice (device : Device) : Z :=
  MAXIMUM_BRIGHTNESS_IN_LUMEN_BY_DEVICE_TYPE (type device).

(** [None] stands for [undefined], the value of an index out of range. *)
Definition getMinimumTemperatureInKelvinForDevice (device : Device)
  : option Z :=
  nth_error (ALLOWED_TEMPERATURES_IN_KELVIN_BY_DEVICE_TYPE (type device)) 0.

Definition getMaximumTemperatureInKelvinForDevice (device : Device)
  : option Z :=
  let allowedTemperatures :=
    ALLOWED_TEMPERATURES_IN_KELVIN_BY_DEVICE_TYPE (type device) in
  nth_error allowedTemperatures (List.length allowedTemperatures - 1).

Definition getAllowedTemperaturesInKelvinForDevice (device : Device)
  : list Z :=
  ALLOWED_TEMPERATURES_IN_KELVIN_BY_DEVICE_TYPE (type device).

Definition getNameForDevice (device : Device) : string :=
  NAME_BY_DEVICE_TYPE (type device).

(** [device.hid.write(padRight(array, 20, 0x00))] *)
Definition writeFrame (array : list Z) : M unit :=
  values <- lift (padRight array 20 0x00) ;;
  hid_write values ;;
  ret tt.

Definition turnOn (device : Device) : M unit :=
  writeFrame [0x11; 0xff; 0x06; 0x1c; 0x01].

Definition turnOff (device : Device) : M unit :=
  writeFrame [0x11; 0xff; 0x06; 0x1c; 0x00].

Definition isOn (device : Device) : M bool :=
  writeFrame [0x11; 0xff; 0x06; 0x01] ;;
  data <- hid_readSync ;;
  ret (match nth_error data 4 with
       | Some b => b =? 1
       | None => false
       end).

Definition toggle (device : Device) : M unit :=
  on <- isOn device ;;
  if on then turnOff device else turnOn device.

Definition setTemperatureInKelvin
  (device : Device) (temperatureInKelvin : number) : M unit :=
  if negb (isInteger temperatureInKelvin)
  then throw "Provided temperature must be an integer"
  else
    let minimumTemperature := getMinimumTemperatureInKelvinForDevice device in
    let maximumTemperature := getMaximumTemperatureInKelvinForDevice device in
    let allowedTemperatures := getAllowedTemperaturesInKelvinForDevice device in
    if negb (includes allowedTemperatures temperatureInKelvin)
    then throw ("Provided temperature must be a multiple of 100 between "
                ++ toStringOpt minimumTemperature ++ " and "
                ++ toStringOpt maximumTemperature ++ " for this device")
    else
      writeFrame ([0x11; 0xff; 0x06; 0x9c]
                  ++ integerToBytes (integerValue temperatureInKelvin)).

(** [data[4] * 256 + data[5]]; [NaN] when an index is out of range. *)
Definition getTemperatureInKelvin (device : Device) : M number :=
  writeFrame [0x11; 0xff; 0x06; 0x81] ;;
  data <- hid_readSync ;;
  ret (match nth_error data 4, nth_error data 5 with
       | Some high, Some low => of_Z (high * 256 + low)
       | _, _ => NaN
       end).

Definition setBrightnessInLumen
  (device : Device) (brightnessInLumen : number) : M unit :=
  if negb (isInteger brightnessInLumen)
  then throw "Provided brightness must be an integer"
  else
    let minimumBrightness := getMinimumBrightnessInLumenForDevice device in
    let maximumBrightness := getMaximumBrightnessInLumenForDevice device in
    if lt brightnessInLumen (of_Z minimumBrightness)
       || gt brightnessInLumen (of_Z maximumBrightness)
    then throw ("Provided brightness must be between "
                ++ toString minimumBrightness ++ " and "
                ++ toString maximumBrightness ++ " for this device")
    else
      writeFrame ([0x11; 0xff; 0x06; 0x4c]
                  ++ integerToBytes (integerValue brightnessInLumen)).

(** [data[5]]; [None] stands for [undefined]. *)
Definition getBrightnessInLumen (device : Device) : M (option Z) :=
  writeFrame [0x11; 0xff; 0x06; 0x31] ;;
  data <- hid_readSync ;;
  ret (nth_error data 5).

Definition setBrightnessPercentage
  (device : Device) (brightnessPercentage : number) : M unit :=
  if lt brightnessPercentage (of_Z 0) || gt brightnessPercentage (of_Z 100)
  then throw "Percentage must be between 0 and 100"
  else
    let minimumBrightness := getMinimumBrightnessInLumenForDevice device in
    let maximumBrightness := getMaximumBrightnessInLumenForDevice device in
    setBrightnessInLumen device
      (if strictEq brightnessPercentage (of_Z 0)
       then of_Z minimumBrightness
       else percentageWithinRange brightnessPercentage
              minimumBrightness maximumBrightness).

(** *** Discovery

    [HID.devices()] is the list of descriptors given as argument, and
    [new HID.HID(path)] is modelled as succeeding: the device found is
    returned with the path its [hid] was opened on. *)






(** *** RGB

    The channels are taken as integers; they are written as given. *)
Definition setRGBColor (device : Device) (red green blue : Z) : M unit :=
  writeFrame [0x11; 0xff; 0x0B; 0x5F; 1; 1] ;;
  writeFrame [0x11; 0xff; 0x0a; 0x4b; 1] ;;
  writeFrame [0x11; 0xff; 0x0a; 0x2e; 0; 100] ;;
  writeFrame [0x11; 0xff; 0x0b; 0x1f; 0; 0; red; green; blue;
              0; 0; 0; 0; 0; 0; 0; 1] ;;
  hid_readSync ;;
  writeFrame [0x11; 0xff; 0x0b; 0x1f; 0; 0; red; green; blue;
              0; 0; 0; 0; 0; 0; 0; 1].

(** ** Vocabulary of the properties *)

(** The frames written, in order, among the events of a log. *)
Definition writtenFrames (events : list event) : list (list Z) :=
  flat_map (fun e => match e with
                     | Written values => [values]
                     | ReadSync _ => []
                     end) events.

(** The number of reads among the events of a log. *)
Definition readCount (events : list event) : nat :=
  List.length (filter (fun e => match e with
                                | Written _ => false
                                | ReadSync _ => true
                                end) events).

Definition isByte (b : Z) : Prop := 0 <= b <= 255.

(** A frame of the wire format: 20 bytes. *)
Definition isFrame (values : list Z) : Prop :=
  List.length values = 20%nat /\ Forall isByte values.

(** [h'] is [h] after the events [added]: the log has grown by them, one
    response was consumed per read, and the device answers as before. *)
Definition extends (h h' : HID) (added : list event) : Prop :=
  responses h' = responses h
  /\ reads h' = (reads h + readCount added)%nat
  /\ log h' = log h ++ added.

(** From [h] to [h'] the operation wrote [nwrites] frames of the wire
    format, made [nreads] reads, and did nothing else to the transport. *)
Definition performs (h h' : HID) (nwrites nreads : nat) : Prop :=
  exists added : list event,
    extends h h' added
    /\ Forall isFrame (writtenFrames added)
    /\ List.length (writtenFrames added) = nwrites
    /\ readCount added = nreads.



Definition beamDescriptor : HIDDevice :=
  mkHIDDevice (of_Z 0x046d) (of_Z 0xb901) (of_Z 0xff43)
              "/dev/hidraw5" "2249FE5678".
Definition otherDescriptor : HIDDevice :=
  mkHIDDevice (of_Z 0x046d) (of_Z 0xc52b) (of_Z 0xff00)
              "/dev/hidraw0" "".

(** The bytes at offsets 4 and 5 of a response. *)
Definition carries (data : list Z) (high low : Z) : Prop :=
  nth_error data 4 = Some high /\ nth_error data 5 = Some low.

(** Two sample devices. *)
Definition glow : Device := mkDevice LitraGlow "2143FE1234".
Definition beam : Device := mkDevice LitraBeam "2249FE5678".

(** An unused transport whose device answers every read with the given
    frame. *)
Definition fresh (answer : list Z) : HID := mkHID (fun _ => answer) 0 [].

(** The 20-byte frame that starts with the given bytes. *)
Definition frame (array : list Z) : list Z :=
  array ++ repeat 0 (20 - List.length array).

(** The transport after one more write of [values]. *)
Definition wrote (h : HID) (values : list Z) : HID :=
  mkHID (responses h) (reads h) (log h ++ [Written values]).

(** The transport after one more read. *)
Definition didRead (h : HID) : HID :=
  mkHID (responses h) (S (reads h)) (log h ++ [ReadSync (responses h (reads h))]).

(** A percentage within [0, 100]. *)
Definition withinPercentageRange (x : number) : Prop :=
  match x with
  | Fin p => (0 <= p <= 100)%Q
  | _ => False
  end.

(** The response frame reports the device on: its byte at offset 4 is 1. *)
Definition reportsOn (data : list Z) : Prop := nth_error data 4 = Some 1.

(** ** Facts about numbers *)

Section NumberFacts.

Variables (x : number) (n : Z).
Hypothesis Hx : isZ x n.

Lemma isZ_integerValue : integerValue x = n.
Proof.
  destruct x as [q| | |]; simpl in *; try contradiction.
  rewrite (Qfloor_comp _ _ Hx). apply Qfloor_Z.
Qed.

Lemma isZ_isInteger : isInteger x = true.
Proof.
  destruct x as [q| | |]; simpl in *; try contradiction.
  apply Qeq_bool_iff.
  rewrite (Qfloor_comp _ _ Hx), Qfloor_Z. symmetry. exact Hx.
Qed.

Lemma isZ_lt (m : Z) : lt x (of_Z m) = (n <? m).
Proof.
  destruct x as [q| | |]; simpl in *; try contradiction.
  rewrite (Qleb_comp _ _ (Qeq_refl (inject_Z m)) _ _ Hx).
  destruct (Z.ltb_spec n m) as [H|H].
  - apply negb_true_iff. destruct (Qle_bool (inject_Z m) (inject_Z n)) eqn:E; trivial.
    apply Qle_bool_iff in E. rewrite <- Zle_Qle in E. lia.
  - apply negb_false_iff. apply Qle_bool_iff. rewrite <- Zle_Qle. exact H.
Qed.

Lemma isZ_gt (m : Z) : gt x (of_Z m) = (m <? n).
Proof.
  unfold gt. destruct x as [q| | |]; simpl in *; try contradiction.
  rewrite (Qleb_comp _ _ Hx _ _ (Qeq_refl (inject_Z m))).
  destruct (Z.ltb_spec m n) as [H|H].
  - apply negb_true_iff. destruct (Qle_bool (inject_Z n) (inject_Z m)) eqn:E; trivial.
    apply Qle_bool_iff in E. rewrite <- Zle_Qle in E. lia.
  - apply negb_false_iff. apply Qle_bool_iff. rewrite <- Zle_Qle. exact H.
Qed.

Lemma isZ_strictEq (m : Z) : strictEq x (of_Z m) = (n =? m).
Proof.
  destruct x as [q| | |]; simpl in *; try contradiction.
  rewrite (Qeqb_comp _ _ Hx _ _ (Qeq_refl (inject_Z m))).
  destruct (Z.eqb_spec n m) as [->|H].
  - apply Qeq_bool_refl.
  - destruct (Qeq_bool (inject_Z n) (inject_Z m)) eqn:E; trivial.
    apply Qeq_bool_eq in E. apply (proj1 (inject_Z_injective _ _)) in E.
    contradiction.
Qed.

Lemma isZ_sameValueZero (m : Z) : sameValueZero (of_Z m) x = (m =? n).
Proof.
  destruct x as [q| | |]; simpl in *; try contradiction.
  rewrite (Qeqb_comp _ _ (Qeq_refl (inject_Z m)) _ _ Hx).
  destruct (Z.eqb_spec m n) as [->|H].
  - apply Qeq_bool_refl.
  - destruct (Qeq_bool (inject_Z m) (inject_Z n)) eqn:E; trivial.
    apply Qeq_bool_eq in E. apply (proj1 (inject_Z_injective _ _)) in E.
    contradiction.
Qed.

Lemma isZ_includes (array : list Z) : includes array x = true <-> In n array.
Proof.
  unfold includes. rewrite existsb_exists. split.
  - intros (a & Ha & E). rewrite isZ_sameValueZero in E.
    apply Z.eqb_eq in E. now subst.
  - intros Ha. exists n. split; trivial.
    rewrite isZ_sameValueZero. apply Z.eqb_refl.
Qed.

End NumberFacts.

Lemma isInteger_isZ (x : number) :
  isInteger x = true -> isZ x (integerValue x).
Proof.
  destruct x as [q| | |]; simpl; try discriminate.
  intros H. apply Qeq_bool_iff in H. symmetry. exact H.
Qed.

(** A number is an integer in the sense of [Number.isInteger] exactly
    when it is some integer. *)
Lemma isInteger_iff (x : number) : isInteger x = true <-> exists n, isZ x n.
Proof.
  split.
  - intros H. exists (integerValue x). now apply isInteger_isZ.
  - intros (n & H). exact (isZ_isInteger x n H).
Qed.

Lemma strictEq_of_Z_isZ (x : number) (m : Z) :
  strictEq x (of_Z m) = true -> isZ x m.
Proof.
  destruct x as [q| | |]; simpl; try discriminate.
  apply Qeq_bool_iff.
Qed.

(** ** Running the transport *)

Lemma bind_normal {A B} (m : M A) (k : A -> M B) h a h' :
  m h = (Normal a, h') -> bind m k h = k a h'.
Proof. unfold bind. now intros ->. Qed.

Lemma writeFrame_run (array : list Z) (h : HID) :
  (List.length array <= 20)%nat ->
  writeFrame array h = (Normal tt, wrote h (frame array)).
Proof.
  intros Hlen. unfold writeFrame, lift, padRight, bind.
  destruct (Nat.ltb_spec 20 (List.length array)) as [H|H]; [lia|].
  reflexivity.
Qed.

Lemma writeFrame_parameters (a b c d n : Z) (h : HID) :
  writeFrame ([a; b; c; d] ++ integerToBytes n) h
  = (Normal tt, wrote h ([a; b; c; d; n / 256; n mod 256] ++ repeat 0 14)).
Proof. apply writeFrame_run. simpl. lia. Qed.

Lemma isOn_run (device : Device) (h : HID) :
  isOn device h
  = (Normal (match nth_error (responses h (reads h)) 4 with
             | Some b => b =? 1
             | None => false
             end),
     didRead (wrote h (frame [0x11; 0xff; 0x06; 0x01]))).
Proof.
  unfold isOn.
  erewrite bind_normal by (apply writeFrame_run; simpl; lia).
  reflexivity.
Qed.

Lemma temperature_range_message (device : Device) :
  ("Provided temperature must be a multiple of 100 between "
   ++ toStringOpt (getMinimumTemperatureInKelvinForDevice device) ++ " and "
   ++ toStringOpt (getMaximumTemperatureInKelvinForDevice device)
   ++ " for this device")%string
  = "Provided temperature must be a multiple of 100 between 2700 and 6500 for this device"%string.
Proof. destruct device as [[|] ?]; vm_compute; reflexivity. Qed.

(** ** Power *)

Lemma turnOn_turnOff_frames_aux (device : Device) (h : HID) :
  turnOn device h = (Normal tt, wrote h (frame [0x11; 0xff; 0x06; 0x1c; 0x01]))
  /\ turnOff device h
     = (Normal tt, wrote h (frame [0x11; 0xff; 0x06; 0x1c; 0x00])).
Proof.
  split; [unfold turnOn | unfold turnOff];
    apply writeFrame_run; simpl; lia.
Qed.

(** C5: for every device, [turnOn] writes exactly the 20 bytes
    0x11 0xff 0x06 0x1c 0x01 followed by fifteen zero bytes, and [turnOff]
    writes the same 20 bytes except that the fifth is 0x00; neither reads
    nor fails. *)
Theorem turnOn_turnOff_frames (device : Device) (h : HID) :
  turnOn device h
  = (Normal tt,
     wrote h [0x11; 0xff; 0x06; 0x1c; 0x01; 0; 0; 0; 0; 0;
              0; 0; 0; 0; 0; 0; 0; 0; 0; 0])
  /\ turnOff device h
     = (Normal tt,
        wrote h [0x11; 0xff; 0x06; 0x1c; 0x00; 0; 0; 0; 0; 0;
                 0; 0; 0; 0; 0; 0; 0; 0; 0; 0]).
Proof.
  exact (turnOn_turnOff_frames_aux device h).
Qed.

(** C6: for every device, [toggle] writes the power query, reads one
    response, and then writes exactly one more frame: the turn-off frame
    when the byte at offset 4 of the response is 1, the turn-on frame
    otherwise.  The events it adds to the log are these three, so it never
    writes both the on and the off frame. *)
Theorem toggle_events (device : Device) (h : HID) :
  let data := responses h (reads h) in
  let query := [0x11; 0xff; 0x06; 0x01; 0; 0; 0; 0; 0; 0;
                0; 0; 0; 0; 0; 0; 0; 0; 0; 0] in
  let on := [0x11; 0xff; 0x06; 0x1c; 0x01; 0; 0; 0; 0; 0;
             0; 0; 0; 0; 0; 0; 0; 0; 0; 0] in
  let off := [0x11; 0xff; 0x06; 0x1c; 0x00; 0; 0; 0; 0; 0;
              0; 0; 0; 0; 0; 0; 0; 0; 0; 0] in
  (reportsOn data ->
   toggle device h
   = (Normal tt,
      mkHID (responses h) (S (reads h))
            (log h ++ [Written query; ReadSync data; Written off])))
  /\ (~ reportsOn data ->
      toggle device h
      = (Normal tt,
         mkHID (responses h) (S (reads h))
               (log h ++ [Written query; ReadSync data; Written on]))).
Proof.
  intros data query on off. unfold reportsOn, toggle.
  rewrite (bind_normal _ _ _ _ _ (isOn_run device h)).
  fold data. split; intros Hdata.
  - rewrite Hdata. cbn [Z.eqb Pos.eqb].
    destruct (turnOn_turnOff_frames_aux device
                (didRead (wrote h (frame [0x11; 0xff; 0x06; 0x01]))))
      as [_ ->].
    unfold wrote, didRead; cbn [responses reads log].
    rewrite <- !app_assoc. reflexivity.
  - assert (Hoff : match nth_error data 4 with
                   | Some b => b =? 1
                   | None => false
                   end = false).
    { destruct (nth_error data 4) as [b|]; trivial.
      apply Z.eqb_neq. intros ->. now apply Hdata. }
    rewrite Hoff.
    destruct (turnOn_turnOff_frames_aux device
                (didRead (wrote h (frame [0x11; 0xff; 0x06; 0x01]))))
      as [-> _].
    unfold wrote, didRead; cbn [responses reads log].
    rewrite <- !app_assoc. reflexivity.
Qed.

(** ** Setters: validation *)

Lemma brightness_range_message (device : Device) :
  ("Provided brightness must be between "
   ++ toString (getMinimumBrightnessInLumenForDevice device) ++ " and "
   ++ toString (getMaximumBrightnessInLumenForDevice device)
   ++ " for this device")%string
  = match type device with
    | LitraGlow =>
        "Provided brightness must be between 20 and 250 for this device"
    | LitraBeam =>
        "Provided brightness must be between 30 and 400 for this device"
    end%string.
Proof. destruct device as [[|] ?]; reflexivity. Qed.

Lemma setTemperatureInKelvin_not_integer device t h :
  isInteger t = false ->
  setTemperatureInKelvin device t h
  = (Throw "Provided temperature must be an integer", h).
Proof. unfold setTemperatureInKelvin. now intros ->. Qed.

Lemma setTemperatureInKelvin_not_allowed device t n h :
  isZ t n ->
  ~ In n (getAllowedTemperaturesInKelvinForDevice device) ->
  setTemperatureInKelvin device t h
  = (Throw "Provided temperature must be a multiple of 100 between 2700 and 6500 for this device",
     h).
Proof.
  intros Ht Hn. unfold setTemperatureInKelvin.
  rewrite (isZ_isInteger t n Ht). cbn [negb].
  destruct (includes _ t) eqn:E.
  - apply (isZ_includes t n Ht) in E. contradiction.
  - cbn [negb]. rewrite temperature_range_message. reflexivity.
Qed.

Lemma setTemperatureInKelvin_allowed device t n h :
  isZ t n ->
  In n (getAllowedTemperaturesInKelvinForDevice device) ->
  setTemperatureInKelvin device t h
  = (Normal tt,
     wrote h ([0x11; 0xff; 0x06; 0x9c; n / 256; n mod 256] ++ repeat 0 14)).
Proof.
  intros Ht Hn. unfold setTemperatureInKelvin.
  rewrite (isZ_isInteger t n Ht). cbn [negb].
  apply (isZ_includes t n Ht) in Hn. rewrite Hn. cbn [negb].
  rewrite (isZ_integerValue t n Ht). apply writeFrame_parameters.
Qed.

(** C2: [setTemperatureInKelvin device t] throws when [t] is not an
    integer; throws the range error when [t] is an integer outside the
    allowed temperatures of the device; and for an allowed [t] it returns
    after one write of the 20-byte frame 0x11 0xff 0x06 0x9c followed by
    [t div 256], [t mod 256] and fourteen zero bytes.  A failing call
    leaves the transport as it was. *)
Theorem setTemperatureInKelvin_spec (device : Device) (t : number) (h : HID) :
  (isInteger t = false ->
   setTemperatureInKelvin device t h
   = (Throw "Provided temperature must be an integer", h))
  /\ (forall n : Z,
        isZ t n ->
        ~ In n (getAllowedTemperaturesInKelvinForDevice device) ->
        setTemperatureInKelvin device t h
        = (Throw "Provided temperature must be a multiple of 100 between 2700 and 6500 for this device",
           h))
  /\ (forall n : Z,
        isZ t n ->
        In n (getAllowedTemperaturesInKelvinForDevice device) ->
        setTemperatureInKelvin device t h
        = (Normal tt,
           wrote h ([0x11; 0xff; 0x06; 0x9c; n / 256; n mod 256]
                    ++ repeat 0 14))).
Proof.
  split; [|split].
  - apply setTemperatureInKelvin_not_integer.
  - intros n. apply setTemperatureInKelvin_not_allowed.
  - intros n. apply setTemperatureInKelvin_allowed.
Qed.

Lemma setBrightnessInLumen_not_integer device b h :
  isInteger b = false ->
  setBrightnessInLumen device b h
  = (Throw "Provided brightness must be an integer", h).
Proof. unfold setBrightnessInLumen. now intros ->. Qed.

Lemma setBrightnessInLumen_out_of_range device b n h :
  isZ b n ->
  n < getMinimumBrightnessInLumenForDevice device
  \/ getMaximumBrightnessInLumenForDevice device < n ->
  setBrightnessInLumen device b h
  = (Throw match type device with
           | LitraGlow =>
               "Provided brightness must be between 20 and 250 for this device"
           | LitraBeam =>
               "Provided brightness must be between 30 and 400 for this device"
           end,
     h).
Proof.
  intros Hb Hn. unfold setBrightnessInLumen.
  rewrite (isZ_isInteger b n Hb). cbn [negb].
  rewrite (isZ_lt b n Hb), (isZ_gt b n Hb).
  replace (_ || _) with true.
  - rewrite brightness_range_message. reflexivity.
  - symmetry. apply orb_true_iff. rewrite !Z.ltb_lt. exact Hn.
Qed.

Lemma setBrightnessInLumen_in_range device b n h :
  isZ b n ->
  getMinimumBrightnessInLumenForDevice device <= n
  <= getMaximumBrightnessInLumenForDevice device ->
  setBrightnessInLumen device b h
  = (Normal tt,
     wrote h ([0x11; 0xff; 0x06; 0x4c; n / 256; n mod 256] ++ repeat 0 14)).
Proof.
  intros Hb Hn. unfold setBrightnessInLumen.
  rewrite (isZ_isInteger b n Hb). cbn [negb].
  rewrite (isZ_lt b n Hb), (isZ_gt b n Hb).
  replace (_ || _) with false.
  - rewrite (isZ_integerValue b n Hb). apply writeFrame_parameters.
  - symmetry. apply orb_false_iff. rewrite !Z.ltb_ge. lia.
Qed.

(** C3: [setBrightnessInLumen device b] throws when [b] is not an integer
    and when [b] is an integer strictly below the minimum or strictly above
    the maximum of the device; for an integer [b] with [min <= b <= max],
    the two bounds included, it returns after one write of the 20-byte frame
    0x11 0xff 0x06 0x4c followed by [b div 256], [b mod 256] and fourteen
    zero bytes.  A failing call leaves the transport as it was. *)
Theorem setBrightnessInLumen_spec (device : Device) (b : number) (h : HID) :
  (isInteger b = false ->
   setBrightnessInLumen device b h
   = (Throw "Provided brightness must be an integer", h))
  /\ (forall n : Z,
        isZ b n ->
        n < getMinimumBrightnessInLumenForDevice device
        \/ getMaximumBrightnessInLumenForDevice device < n ->
        setBrightnessInLumen device b h
        = (Throw match type device with
                 | LitraGlow =>
                     "Provided brightness must be between 20 and 250 for this device"
                 | LitraBeam =>
                     "Provided brightness must be between 30 and 400 for this device"
                 end,
           h))
  /\ (forall n : Z,
        isZ b n ->
        getMinimumBrightnessInLumenForDevice device <= n
        <= getMaximumBrightnessInLumenForDevice device ->
        setBrightnessInLumen device b h
        = (Normal tt,
           wrote h ([0x11; 0xff; 0x06; 0x4c; n / 256; n mod 256]
                    ++ repeat 0 14))).
Proof.
  split; [|split].
  - apply setBrightnessInLumen_not_integer.
  - intros n. apply setBrightnessInLumen_out_of_range.
  - intros n. apply setBrightnessInLumen_in_range.
Qed.

(** A failing setter has not touched the transport. *)

Lemma setTemperatureInKelvin_throw device t h message h' :
  setTemperatureInKelvin device t h = (Throw message, h') -> h' = h.
Proof.
  unfold setTemperatureInKelvin.
  destruct (isInteger t); cbn [negb].
  - destruct (includes _ t); cbn [negb].
    + rewrite writeFrame_parameters. discriminate.
    + unfold throw. now intros [= _ <-].
  - unfold throw. now intros [= _ <-].
Qed.

Lemma setBrightnessInLumen_throw device b h message h' :
  setBrightnessInLumen device b h = (Throw message, h') -> h' = h.
Proof.
  unfold setBrightnessInLumen.
  destruct (isInteger b); cbn [negb].
  - destruct (_ || _).
    + unfold throw. now intros [= _ <-].
    + rewrite writeFrame_parameters. discriminate.
  - unfold throw. now intros [= _ <-].
Qed.

Lemma setBrightnessPercentage_throw device p h message h' :
  setBrightnessPercentage device p h = (Throw message, h') -> h' = h.
Proof.
  unfold setBrightnessPercentage.
  destruct (_ || _).
  - unfold throw. now intros [= _ <-].
  - apply setBrightnessInLumen_throw.
Qed.

(** C4: whenever [setTemperatureInKelvin], [setBrightnessInLumen] or
    [setBrightnessPercentage] throws, the transport is exactly as it was
    before the call: nothing was written (or read). *)
Theorem setters_throw_before_writing
  (device : Device) (x : number) (h h' : HID) (message : string) :
  (setTemperatureInKelvin device x h = (Throw message, h') -> h' = h)
  /\ (setBrightnessInLumen device x h = (Throw message, h') -> h' = h)
  /\ (setBrightnessPercentage device x h = (Throw message, h') -> h' = h).
Proof.
  split; [|split].
  - apply setTemperatureInKelvin_throw.
  - apply setBrightnessInLumen_throw.
  - apply setBrightnessPercentage_throw.
Qed.

(** ** Brightness as a percentage *)

Section Rounding.

Lemma Qfloor_half_up (z : Z) : Qfloor (inject_Z z + (1 # 2)) = z.
Proof.
  unfold Qfloor, Qplus, inject_Z. cbn [Qnum Qden].
  symmetry. apply (Z.div_unique _ _ _ 1); lia.
Qed.

Lemma Qceiling_half_down (z : Z) : Qceiling (inject_Z z - (1 # 2)) = z.
Proof.
  unfold Qceiling, Qfloor, Qminus, Qopp, Qplus, inject_Z. cbn [Qnum Qden].
  rewrite <- (Z.div_unique (- (z * 2 + - (1) * 1)) (Z.pos (1 * 2)) (- z) 1);
    lia.
Qed.

(** Rounding to the nearest integer stays between integer bounds. *)
Lemma roundNearest_between (a b : Z) (x : Q) :
  (inject_Z a <= x <= inject_Z b)%Q -> a <= roundNearest x <= b.
Proof.
  intros [Ha Hb]. unfold roundNearest. destruct (Qle_bool 0 x).
  - split.
    + rewrite <- (Qfloor_Z a) at 1. apply Qfloor_resp_le. lra.
    + rewrite <- (Qfloor_half_up b). apply Qfloor_resp_le. lra.
  - split.
    + rewrite <- (Qceiling_half_down a) at 1. apply Qceiling_resp_le. lra.
    + rewrite <- (Qceiling_Z b). apply Qceiling_resp_le. lra.
Qed.

Lemma roundNearest_exact (z : Z) (x : Q) :
  x == inject_Z z -> roundNearest x = z.
Proof.
  intros H. assert (z <= roundNearest x <= z); [|lia].
  apply roundNearest_between. lra.
Qed.

(** The linear scaling of a percentage stays within the range. *)
Lemma scaling_between (a b : Z) (p : Q) :
  a <= b -> (0 <= p <= 100)%Q ->
  (inject_Z a
   <= inject_Z a + (p / inject_Z 100) * inject_Z (b - a)
   <= inject_Z b)%Q.
Proof.
  intros Hab [H0 H100].
  assert (Hd : (0 <= inject_Z (b - a))%Q).
  { change 0%Q with (inject_Z 0). rewrite <- Zle_Qle. lia. }
  assert (Hb : inject_Z b == inject_Z a + inject_Z (b - a)).
  { rewrite <- inject_Z_plus. apply inject_Z_injective. lia. }
  rewrite Hb. set (d := inject_Z (b - a)) in *.
  assert (Hf : (0 <= p / inject_Z 100 <= 1)%Q).
  { change (inject_Z 100) with 100%Q. split.
    - apply Qle_shift_div_l; lra.
    - apply Qle_shift_div_r; lra. }
  set (f := (p / inject_Z 100)%Q) in *.
  split; nra.
Qed.

Lemma scaling_full (a b : Z) (p : Q) :
  p == 100 ->
  inject_Z a + (p / inject_Z 100) * inject_Z (b - a) == inject_Z b.
Proof.
  intros Hp. rewrite Hp. change (inject_Z 100) with 100%Q.
  unfold Zminus. rewrite inject_Z_plus, inject_Z_opp. field.
Qed.

End Rounding.

Lemma brightness_bounds (device : Device) :
  getMinimumBrightnessInLumenForDevice device
  <= getMaximumBrightnessInLumenForDevice device.
Proof.
  unfold getMinimumBrightnessInLumenForDevice,
    getMaximumBrightnessInLumenForDevice.
  destruct (type device); simpl; lia.
Qed.

Lemma percentage_guard_passes (p : Q) :
  (0 <= p <= 100)%Q ->
  lt (Fin p) (of_Z 0) || gt (Fin p) (of_Z 100) = false.
Proof.
  intros [H0 H100]. unfold gt, lt, of_Z.
  apply orb_false_iff. split; apply negb_false_iff, Qle_bool_iff; assumption.
Qed.

Lemma percentage_guard_fails (p : Q) :
  ~ (0 <= p <= 100)%Q ->
  lt (Fin p) (of_Z 0) || gt (Fin p) (of_Z 100) = true.
Proof.
  intros H. unfold gt, lt, of_Z.
  destruct (Qle_bool (inject_Z 0) p) eqn:E0; trivial.
  destruct (Qle_bool p (inject_Z 100)) eqn:E100; trivial.
  apply Qle_bool_iff in E0, E100. exfalso. apply H. split; assumption.
Qed.

Lemma setBrightnessPercentage_within (device : Device) (p : Q) :
  (0 <= p <= 100)%Q ->
  setBrightnessPercentage device (Fin p)
  = setBrightnessInLumen device
      (if strictEq (Fin p) (of_Z 0)
       then of_Z (getMinimumBrightnessInLumenForDevice device)
       else percentageWithinRange (Fin p)
              (getMinimumBrightnessInLumenForDevice device)
              (getMaximumBrightnessInLumenForDevice device)).
Proof.
  intros Hp. unfold setBrightnessPercentage.
  rewrite (percentage_guard_passes p Hp). reflexivity.
Qed.

(** C1: for every device and every percentage [p] within [0, 100],
    [setBrightnessPercentage] is [setBrightnessInLumen] at an integer lumen
    value between the minimum and the maximum of the device; at [p = 0] that
    value is the minimum (the code passes it without scaling) and at
    [p = 100] it is the maximum.  For every [p] outside [0, 100] the call
    throws and the transport is left as it was: the percentage guard
    refuses it, except [NaN], which the integer check of
    [setBrightnessInLumen] refuses. *)
Theorem setBrightnessPercentage_spec (device : Device) (p : number) :
  (withinPercentageRange p ->
   exists lumen : Z,
     getMinimumBrightnessInLumenForDevice device <= lumen
     <= getMaximumBrightnessInLumenForDevice device
     /\ setBrightnessPercentage device p
        = setBrightnessInLumen device (of_Z lumen)
     /\ (isZ p 0 -> lumen = getMinimumBrightnessInLumenForDevice device)
     /\ (isZ p 100 -> lumen = getMaximumBrightnessInLumenForDevice device))
  /\ (~ withinPercentageRange p ->
      forall h : HID,
        setBrightnessPercentage device p h
        = (Throw match p with
                 | NaN => "Provided brightness must be an integer"
                 | _ => "Percentage must be between 0 and 100"
                 end,
           h)).
Proof.
  pose proof (brightness_bounds device) as Hmm.
  split.
  - destruct p as [q| | |]; simpl; try contradiction. intros Hq.
    rewrite (setBrightnessPercentage_within device q Hq).
    cbn [strictEq of_Z percentageWithinRange].
    destruct (Qeq_bool q (inject_Z 0)) eqn:E0.
    + exists (getMinimumBrightnessInLumenForDevice device).
      repeat split; try lia.
      intros H100. apply Qeq_bool_iff in E0. rewrite E0 in H100.
      apply (proj1 (inject_Z_injective _ _)) in H100. discriminate.
    + eexists. split; [|split; [reflexivity|split]].
      * apply roundNearest_between, scaling_between; assumption.
      * intros H0. apply Qeq_bool_neq in E0. contradiction.
      * intros H100. apply roundNearest_exact, scaling_full. exact H100.
  - intros Hp h. destruct p as [q| | |].
    + unfold setBrightnessPercentage.
      rewrite (percentage_guard_fails q Hp). reflexivity.
    + reflexivity.
    + reflexivity.
    + reflexivity.
Qed.

Lemma setBrightnessInLumen_no_percentage_error device b h :
  fst (setBrightnessInLumen device b h)
  <> Throw "Percentage must be between 0 and 100".
Proof.
  unfold setBrightnessInLumen.
  destruct (isInteger b); cbn [negb]; [|discriminate].
  destruct (_ || _).
  - rewrite brightness_range_message. destruct (type device); discriminate.
  - rewrite writeFrame_parameters. discriminate.
Qed.

(** C10: a percentage need not be an integer.  For every non-integer
    percentage strictly between 0 and 100 the guard on [0, 100] passes:
    the call is [setBrightnessInLumen] at the scaled and rounded lumen value,
    so its outcome is the outcome of that call, and it never throws the
    percentage error. *)
Theorem setBrightnessPercentage_fractional (device : Device) (q : Q) :
  (0 < q < 100)%Q ->
  isInteger (Fin q) = false ->
  setBrightnessPercentage device (Fin q)
  = setBrightnessInLumen device
      (percentageWithinRange (Fin q)
         (getMinimumBrightnessInLumenForDevice device)
         (getMaximumBrightnessInLumenForDevice device))
  /\ forall h : HID,
       fst (setBrightnessPercentage device (Fin q) h)
       <> Throw "Percentage must be between 0 and 100".
Proof.
  intros [H0 H100] _.
  assert (E : setBrightnessPercentage device (Fin q)
              = setBrightnessInLumen device
                  (percentageWithinRange (Fin q)
                     (getMinimumBrightnessInLumenForDevice device)
                     (getMaximumBrightnessInLumenForDevice device))).
  { rewrite setBrightnessPercentage_within by (split; lra).
    cbn [strictEq of_Z].
    destruct (Qeq_bool q (inject_Z 0)) eqn:E0; [|reflexivity].
    apply Qeq_bool_iff in E0. change (inject_Z 0) with 0%Q in E0. lra. }
  split; [exact E|].
  intros h. rewrite E. apply setBrightnessInLumen_no_percentage_error.
Qed.

(** ** Allowed temperatures *)

Section Multiples.

Variables multiplesOf startRange endRange : Z.

Lemma integersBetween_In (i : Z) :
  In i (integersBetween startRange endRange)
  <-> startRange <= i <= endRange.
Proof.
  unfold integersBetween. rewrite in_map_iff. split.
  - intros (k & <- & Hk). apply in_seq in Hk. lia.
  - intros Hi. exists (Z.to_nat (i - startRange)). split; [lia|].
    apply in_seq. lia.
Qed.

(** The helper returns the multiples of the step within the bounds... *)
Lemma multiplesWithinRange_In (i : Z) :
  In i (multiplesWithinRange multiplesOf startRange endRange)
  <-> startRange <= i <= endRange /\ i mod multiplesOf = 0.
Proof.
  unfold multiplesWithinRange.
  rewrite filter_In, integersBetween_In, Z.eqb_eq. reflexivity.
Qed.

Lemma ascending_from (f : nat -> Z) :
  (forall j k, (j < k)%nat -> f j < f k) ->
  forall count first, StronglySorted Z.lt (map f (seq first count)).
Proof.
  intros Hf. induction count as [|count IH]; intros first; simpl.
  - constructor.
  - constructor; [apply IH|].
    apply Forall_forall. intros z Hz.
    apply in_map_iff in Hz as (k & <- & Hk). apply in_seq in Hk.
    apply Hf. lia.
Qed.

Lemma filter_ascending (keep : Z -> bool) (l : list Z) :
  StronglySorted Z.lt l -> StronglySorted Z.lt (filter keep l).
Proof.
  induction 1 as [|a l Hl IH Ha]; simpl; [constructor|].
  destruct (keep a); trivial.
  constructor; trivial.
  apply Forall_forall. intros z Hz. apply filter_In in Hz as [Hz _].
  revert z Hz. now apply Forall_forall.
Qed.

(** ... in strictly ascending order. *)
Lemma multiplesWithinRange_ascending :
  StronglySorted Z.lt (multiplesWithinRange multiplesOf startRange endRange).
Proof.
  apply filter_ascending, ascending_from. intros j k Hjk. lia.
Qed.

End Multiples.

Lemma ascending_NoDup (l : list Z) : StronglySorted Z.lt l -> NoDup l.
Proof.
  induction 1 as [|a l Hl IH Ha]; constructor; trivial.
  intros Hin. rewrite Forall_forall in Ha. specialize (Ha a Hin). lia.
Qed.

(** C7: for every device the allowed temperatures are exactly the 39
    multiples of 100 from 2700 to 6500, both included, in strictly
    ascending order and without duplicates; the minimum temperature is the
    first of them, 2700, and the maximum the last, 6500. *)
Theorem allowed_temperatures (device : Device) :
  let allowed := getAllowedTemperaturesInKelvinForDevice device in
  allowed = map (fun k => 2700 + 100 * Z.of_nat k) (seq 0 39)
  /\ List.length allowed = 39%nat
  /\ (forall t : Z, In t allowed <-> 2700 <= t <= 6500 /\ t mod 100 = 0)
  /\ StronglySorted Z.lt allowed
  /\ NoDup allowed
  /\ getMinimumTemperatureInKelvinForDevice device = Some 2700
  /\ getMinimumTemperatureInKelvinForDevice device = hd_error allowed
  /\ getMaximumTemperatureInKelvinForDevice device = Some 6500
  /\ getMaximumTemperatureInKelvinForDevice device
     = Some (last allowed 0).
Proof.
  assert (Hall : getAllowedTemperaturesInKelvinForDevice device
                 = multiplesWithinRange 100 2700 6500)
    by (destruct device as [[|] ?]; reflexivity).
  assert (Hmin : getMinimumTemperatureInKelvinForDevice device = Some 2700)
    by (destruct device as [[|] ?]; vm_compute; reflexivity).
  assert (Hmax : getMaximumTemperatureInKelvinForDevice device = Some 6500)
    by (destruct device as [[|] ?]; vm_compute; reflexivity).
  cbv zeta. rewrite Hall, Hmin, Hmax.
  split; [vm_compute; reflexivity|].
  split; [vm_compute; reflexivity|].
  split; [intros t; apply multiplesWithinRange_In|].
  split; [apply multiplesWithinRange_ascending|].
  split; [apply ascending_NoDup, multiplesWithinRange_ascending|].
  split; [reflexivity|].
  split; [vm_compute; reflexivity|].
  split; [reflexivity|].
  vm_compute; reflexivity.
Qed.

(** ** Two-byte fields *)

Lemma response_offsets (prefix suffix : list Z) (high low : Z) :
  List.length prefix = 4%nat ->
  nth_error (prefix ++ [high; low] ++ suffix) 4 = Some high
  /\ nth_error (prefix ++ [high; low] ++ suffix) 5 = Some low.
Proof.
  intros H.
  destruct prefix as [|a [|b [|c [|d [|e prefix]]]]]; try discriminate.
  split; reflexivity.
Qed.

(** C8: for every integer [n] in [0, 65535], [integerToBytes n] is a pair
    of bytes [high; low] with [high * 256 + low = n]; and when the device
    answers the temperature query with these two bytes at offsets 4 and 5,
    [getTemperatureInKelvin] returns [n]. *)
Theorem integerToBytes_roundtrip (n : Z) :
  0 <= n <= 65535 ->
  (exists high low : Z,
     integerToBytes n = [high; low]
     /\ 0 <= high <= 255 /\ 0 <= low <= 255
     /\ high * 256 + low = n)
  /\ (forall (device : Device) (h : HID) (prefix suffix : list Z),
        List.length prefix = 4%nat ->
        responses h (reads h) = prefix ++ integerToBytes n ++ suffix ->
        fst (getTemperatureInKelvin device h) = Normal (of_Z n)).
Proof.
  intros Hn. unfold integerToBytes.
  pose proof (Z.mod_pos_bound n 256 ltac:(lia)) as Hlow.
  pose proof (Z.div_mod n 256 ltac:(lia)) as Hdiv.
  assert (Hhigh : 0 <= n / 256 <= 255).
  { split; [apply Z.div_pos; lia|].
    apply Z.lt_succ_r, Z.div_lt_upper_bound; lia. }
  split.
  - exists (n / 256), (n mod 256). repeat split; lia.
  - intros device h prefix suffix Hprefix Hdata.
    unfold getTemperatureInKelvin.
    erewrite bind_normal by (apply writeFrame_run; simpl; lia).
    unfold bind, hid_readSync, ret, wrote; cbn [responses reads log fst].
    rewrite Hdata.
    destruct (response_offsets prefix suffix (n / 256) (n mod 256) Hprefix)
      as [-> ->].
    cbn [fst]. do 2 f_equal. lia.
Qed.

(** ** Device identity *)

Lemma strictEqAt_PRODUCT_IDS (productId : number) :
  strictEqAt productId PRODUCT_IDS 0 = strictEq productId (of_Z 0xc900)
  /\ strictEqAt productId PRODUCT_IDS 1 = strictEq productId (of_Z 0xc901)
  /\ strictEqAt productId PRODUCT_IDS 2 = strictEq productId (of_Z 0xb901)
  /\ strictEqAt productId PRODUCT_IDS 3 = strictEq productId (of_Z 0xc903).
Proof. repeat split. Qed.

(** C9: [getDeviceTypeByProductId] returns the Glow variant for product id
    0xc900, the Beam variant for 0xc901, 0xb901 and 0xc903, and throws
    (["Unknown device type"]) for every other product id. *)
Theorem getDeviceTypeByProductId_spec (productId : number) :
  (isZ productId 0xc900 ->
   getDeviceTypeByProductId productId = Normal LitraGlow)
  /\ (isZ productId 0xc901 \/ isZ productId 0xb901 \/ isZ productId 0xc903 ->
      getDeviceTypeByProductId productId = Normal LitraBeam)
  /\ (~ isZ productId 0xc900 -> ~ isZ productId 0xc901 ->
      ~ isZ productId 0xb901 -> ~ isZ productId 0xc903 ->
      getDeviceTypeByProductId productId = Throw "Unknown device type").
Proof.
  unfold getDeviceTypeByProductId.
  destruct (strictEqAt_PRODUCT_IDS productId) as (-> & -> & -> & ->).
  split; [|split].
  - intros H. rewrite (isZ_strictEq productId _ H). reflexivity.
  - intros [H|[H|H]]; rewrite !(isZ_strictEq productId _ H); reflexivity.
  - intros H0 H1 H2 H3.
    destruct (strictEq productId (of_Z 0xc900)) eqn:E0;
      [apply strictEq_of_Z_isZ in E0; contradiction|].
    destruct (strictEq productId (of_Z 0xc901)) eqn:E1;
      [apply strictEq_of_Z_isZ in E1; contradiction|].
    destruct (strictEq productId (of_Z 0xb901)) eqn:E2;
      [apply strictEq_of_Z_isZ in E2; contradiction|].
    destruct (strictEq productId (of_Z 0xc903)) eqn:E3;
      [apply strictEq_of_Z_isZ in E3; contradiction|].
    reflexivity.
Qed.

(** ** The theorems at concrete inputs *)

Ltac Qcompare := unfold Qle, Qlt, Qeq; simpl; lia.

Ltac solve_brightness_bounds :=
  cbv [getMinimumBrightnessInLumenForDevice
       getMaximumBrightnessInLumenForDevice
       MINIMUM_BRIGHTNESS_IN_LUMEN_BY_DEVICE_TYPE
       MAXIMUM_BRIGHTNESS_IN_LUMEN_BY_DEVICE_TYPE type glow beam];
  lia.

(** 50.5 % of a Glow is [setBrightnessInLumen] at a value within
    [20, 250]; 101 % throws. *)
Lemma setBrightnessPercentage_spec_witness :
  (exists lumen : Z,
     20 <= lumen <= 250
     /\ setBrightnessPercentage glow (Fin (101 # 2))
        = setBrightnessInLumen glow (of_Z lumen)
     /\ (isZ (Fin (101 # 2)) 0 -> lumen = 20)
     /\ (isZ (Fin (101 # 2)) 100 -> lumen = 250))
  /\ (forall h : HID,
        setBrightnessPercentage glow (of_Z 101) h
        = (Throw "Percentage must be between 0 and 100", h)).
Proof.
  split.
  - apply (proj1 (setBrightnessPercentage_spec glow (Fin (101 # 2)))).
    simpl. Qcompare.
  - apply (proj2 (setBrightnessPercentage_spec glow (of_Z 101))).
    simpl. Qcompare.
Defined.

(** 2750 and 6600 are refused, 2700 is written as 0x0a 0x8c, 2700.5 is
    not an integer. *)
Lemma setTemperatureInKelvin_spec_witness :
  setTemperatureInKelvin glow (Fin (5401 # 2)) (fresh [])
  = (Throw "Provided temperature must be an integer", fresh [])
  /\ setTemperatureInKelvin glow (of_Z 2750) (fresh [])
     = (Throw "Provided temperature must be a multiple of 100 between 2700 and 6500 for this device",
        fresh [])
  /\ setTemperatureInKelvin beam (of_Z 6600) (fresh [])
     = (Throw "Provided temperature must be a multiple of 100 between 2700 and 6500 for this device",
        fresh [])
  /\ setTemperatureInKelvin glow (of_Z 2700) (fresh [])
     = (Normal tt,
        wrote (fresh []) [0x11; 0xff; 0x06; 0x9c; 0x0a; 0x8c; 0; 0; 0; 0;
                          0; 0; 0; 0; 0; 0; 0; 0; 0; 0]).
Proof.
  split; [|split; [|split]].
  - apply (proj1 (setTemperatureInKelvin_spec glow (Fin (5401 # 2)) (fresh []))).
    reflexivity.
  - apply (proj1 (proj2 (setTemperatureInKelvin_spec glow (of_Z 2750) (fresh [])))
             2750).
    + simpl. reflexivity.
    + vm_compute. intuition lia.
  - apply (proj1 (proj2 (setTemperatureInKelvin_spec beam (of_Z 6600) (fresh [])))
             6600).
    + simpl. reflexivity.
    + vm_compute. intuition lia.
  - apply (proj2 (proj2 (setTemperatureInKelvin_spec glow (of_Z 2700) (fresh [])))
             2700).
    + simpl. reflexivity.
    + vm_compute. left. reflexivity.
Defined.

(** On a Glow: 50.5, -1 and 251 are refused; 20 and 250 are written. *)
Lemma setBrightnessInLumen_spec_witness :
  setBrightnessInLumen glow (Fin (101 # 2)) (fresh [])
  = (Throw "Provided brightness must be an integer", fresh [])
  /\ setBrightnessInLumen glow (of_Z (-1)) (fresh [])
     = (Throw "Provided brightness must be between 20 and 250 for this device",
        fresh [])
  /\ setBrightnessInLumen glow (of_Z 251) (fresh [])
     = (Throw "Provided brightness must be between 20 and 250 for this device",
        fresh [])
  /\ setBrightnessInLumen glow (of_Z 20) (fresh [])
     = (Normal tt,
        wrote (fresh []) [0x11; 0xff; 0x06; 0x4c; 0; 20; 0; 0; 0; 0;
                          0; 0; 0; 0; 0; 0; 0; 0; 0; 0])
  /\ setBrightnessInLumen glow (of_Z 250) (fresh [])
     = (Normal tt,
        wrote (fresh []) [0x11; 0xff; 0x06; 0x4c; 0; 250; 0; 0; 0; 0;
                          0; 0; 0; 0; 0; 0; 0; 0; 0; 0]).
Proof.
  split; [|split; [|split; [|split]]].
  - apply (proj1 (setBrightnessInLumen_spec glow (Fin (101 # 2)) (fresh []))).
    reflexivity.
  - apply (proj1 (proj2 (setBrightnessInLumen_spec glow (of_Z (-1)) (fresh [])))
             (-1)).
    + simpl. reflexivity.
    + solve_brightness_bounds.
  - apply (proj1 (proj2 (setBrightnessInLumen_spec glow (of_Z 251) (fresh [])))
             251).
    + simpl. reflexivity.
    + solve_brightness_bounds.
  - apply (proj2 (proj2 (setBrightnessInLumen_spec glow (of_Z 20) (fresh [])))
             20).
    + simpl. reflexivity.
    + solve_brightness_bounds.
  - apply (proj2 (proj2 (setBrightnessInLumen_spec glow (of_Z 250) (fresh [])))
             250).
    + simpl. reflexivity.
    + solve_brightness_bounds.
Defined.

(** Three failing calls, one per setter, on a transport that already
    holds one write. *)
Lemma setters_throw_before_writing_witness :
  let h := wrote (fresh []) [1; 2; 3] in
  (setTemperatureInKelvin glow (of_Z 2750) h
   = (Throw "Provided temperature must be a multiple of 100 between 2700 and 6500 for this device",
      h)
   /\ h = h)
  /\ (setBrightnessInLumen glow (Fin (101 # 2)) h
      = (Throw "Provided brightness must be an integer", h)
      /\ h = h)
  /\ (setBrightnessPercentage glow (of_Z 101) h
      = (Throw "Percentage must be between 0 and 100", h)
      /\ h = h).
Proof.
  intros h.
  assert (H1 : setTemperatureInKelvin glow (of_Z 2750) h
               = (Throw "Provided temperature must be a multiple of 100 between 2700 and 6500 for this device",
                  h)) by (vm_compute; reflexivity).
  assert (H2 : setBrightnessInLumen glow (Fin (101 # 2)) h
               = (Throw "Provided brightness must be an integer", h))
    by (vm_compute; reflexivity).
  assert (H3 : setBrightnessPercentage glow (of_Z 101) h
               = (Throw "Percentage must be between 0 and 100", h))
    by (vm_compute; reflexivity).
  split; [|split]; (split; [assumption|]).
  - exact (proj1 (setters_throw_before_writing glow (of_Z 2750) h h _) H1).
  - exact (proj1 (proj2 (setters_throw_before_writing
                           glow (Fin (101 # 2)) h h _)) H2).
  - exact (proj2 (proj2 (setters_throw_before_writing
                           glow (of_Z 101) h h _)) H3).
Defined.

(** A device that reports on is turned off, one that reports off is
    turned on. *)
Lemma toggle_events_witness :
  toggle glow (fresh [0x11; 0xff; 0x06; 0x01; 1])
  = (Normal tt,
     mkHID (fun _ => [0x11; 0xff; 0x06; 0x01; 1]) 1
           [Written [0x11; 0xff; 0x06; 0x01; 0; 0; 0; 0; 0; 0;
                     0; 0; 0; 0; 0; 0; 0; 0; 0; 0];
            ReadSync [0x11; 0xff; 0x06; 0x01; 1];
            Written [0x11; 0xff; 0x06; 0x1c; 0x00; 0; 0; 0; 0; 0;
                     0; 0; 0; 0; 0; 0; 0; 0; 0; 0]])
  /\ toggle beam (fresh [0x11; 0xff; 0x06; 0x01; 0])
     = (Normal tt,
        mkHID (fun _ => [0x11; 0xff; 0x06; 0x01; 0]) 1
              [Written [0x11; 0xff; 0x06; 0x01; 0; 0; 0; 0; 0; 0;
                        0; 0; 0; 0; 0; 0; 0; 0; 0; 0];
               ReadSync [0x11; 0xff; 0x06; 0x01; 0];
               Written [0x11; 0xff; 0x06; 0x1c; 0x01; 0; 0; 0; 0; 0;
                        0; 0; 0; 0; 0; 0; 0; 0; 0; 0]]).
Proof.
  split.
  - apply (proj1 (toggle_events glow (fresh [0x11; 0xff; 0x06; 0x01; 1]))).
    reflexivity.
  - apply (proj2 (toggle_events beam (fresh [0x11; 0xff; 0x06; 0x01; 0]))).
    unfold reportsOn. simpl. discriminate.
Defined.

Lemma allowed_temperatures_witness :
  getAllowedTemperaturesInKelvinForDevice beam
  = map (fun k => 2700 + 100 * Z.of_nat k) (seq 0 39)
  /\ getMinimumTemperatureInKelvinForDevice beam = Some 2700
  /\ getMaximumTemperatureInKelvinForDevice beam = Some 6500.
Proof.
  destruct (allowed_temperatures beam)
    as (Hall & _ & _ & _ & _ & Hmin & _ & Hmax & _).
  split; [exact Hall|split; [exact Hmin|exact Hmax]].
Defined.

(** 2700 K is encoded as 0x0a 0x8c and read back as 2700. *)
Lemma integerToBytes_roundtrip_witness :
  0 <= 2700 <= 65535
  /\ (exists high low : Z,
        integerToBytes 2700 = [high; low]
        /\ 0 <= high <= 255 /\ 0 <= low <= 255
        /\ high * 256 + low = 2700)
  /\ fst (getTemperatureInKelvin glow
            (fresh [0x11; 0xff; 0x06; 0x81; 0x0a; 0x8c; 0; 0]))
     = Normal (of_Z 2700).
Proof.
  assert (H : 0 <= 2700 <= 65535) by lia.
  split; [exact H|]. split.
  - exact (proj1 (integerToBytes_roundtrip 2700 H)).
  - apply (proj2 (integerToBytes_roundtrip 2700 H) glow
             (fresh [0x11; 0xff; 0x06; 0x81; 0x0a; 0x8c; 0; 0])
             [0x11; 0xff; 0x06; 0x81] [0; 0]); reflexivity.
Defined.

(** 0xc900 is a Glow, 0xb901 a Beam, 0xc902 and [NaN] are unknown. *)
Lemma getDeviceTypeByProductId_spec_witness :
  getDeviceTypeByProductId (of_Z 0xc900) = Normal LitraGlow
  /\ getDeviceTypeByProductId (of_Z 0xb901) = Normal LitraBeam
  /\ getDeviceTypeByProductId (of_Z 0xc902) = Throw "Unknown device type"
  /\ getDeviceTypeByProductId NaN = Throw "Unknown device type".
Proof.
  split; [|split; [|split]].
  - apply (proj1 (getDeviceTypeByProductId_spec (of_Z 0xc900))).
    simpl. reflexivity.
  - apply (proj1 (proj2 (getDeviceTypeByProductId_spec (of_Z 0xb901)))).
    right. left. simpl. reflexivity.
  - apply (proj2 (proj2 (getDeviceTypeByProductId_spec (of_Z 0xc902))));
      simpl; Qcompare.
  - apply (proj2 (proj2 (getDeviceTypeByProductId_spec NaN)));
      simpl; intros [].
Defined.

(** 50.5 % is accepted by the percentage guard. *)
Lemma setBrightnessPercentage_fractional_witness :
  ((0 < 101 # 2 < 100)%Q /\ isInteger (Fin (101 # 2)) = false)
  /\ setBrightnessPercentage glow (Fin (101 # 2))
     = setBrightnessInLumen glow
         (percentageWithinRange (Fin (101 # 2)) 20 250)
  /\ forall h : HID,
       fst (setBrightnessPercentage glow (Fin (101 # 2)) h)
       <> Throw "Percentage must be between 0 and 100".
Proof.
  assert (Hq : (0 < 101 # 2 < 100)%Q) by Qcompare.
  assert (Hi : isInteger (Fin (101 # 2)) = false) by reflexivity.
  split; [split; assumption|].
  exact (setBrightnessPercentage_fractional glow (101 # 2) Hq Hi).
Defined.

(** * Further properties of the driver *)

(** ** Discovery *)

Lemma strictEq_true_iff (x : number) (m : Z) :
  strictEq x (of_Z m) = true <-> isZ x m.
Proof.
  split; [apply strictEq_of_Z_isZ|].
  intros H. rewrite (isZ_strictEq x m H). apply Z.eqb_refl.
Qed.

Lemma sameValueZero_strictEq (x : number) (m : Z) :
  sameValueZero (of_Z m) x = strictEq x (of_Z m).
Proof.
  destruct x as [q| | |]; simpl; trivial. apply Qeq_bool_comm.
Qed.

Lemma includes_PRODUCT_IDS (x : number) :
  includes PRODUCT_IDS x
  = strictEq x (of_Z 0xc900) || strictEq x (of_Z 0xc901)
    || strictEq x (of_Z 0xb901) || strictEq x (of_Z 0xc903).
Proof.
  unfold includes, PRODUCT_IDS. cbn [existsb].
  rewrite !sameValueZero_strictEq.
  destruct (strictEq x (of_Z 0xc900)), (strictEq x (of_Z 0xc901)),
    (strictEq x (of_Z 0xb901)), (strictEq x (of_Z 0xc903)); reflexivity.
Qed.

Lemma getDeviceTypeByProductId_included (x : number) :
  includes PRODUCT_IDS x = true ->
  getDeviceTypeByProductId x
  = Normal (if strictEq x (of_Z 0xc900) then LitraGlow else LitraBeam).
Proof.
  rewrite includes_PRODUCT_IDS. unfold getDeviceTypeByProductId.
  destruct (strictEqAt_PRODUCT_IDS x) as (-> & -> & -> & ->).
  destruct (strictEq x (of_Z 0xc900)); [reflexivity|].
  cbn [orb]. intros ->. reflexivity.
Qed.


(** X1: a descriptor is a Litra device exactly when its vendor id is
    0x046d, its product id is one of 0xc900, 0xc901, 0xb901 and 0xc903, and
    its usage page is 0xff43; a descriptor that differs in any of the three
    is refused. *)
Theorem isLitraDevice_iff (device : HIDDevice) :
  isLitraDevice device = true
  <-> isZ (vendorId device) 0x046d
      /\ (isZ (productId device) 0xc900 \/ isZ (productId device) 0xc901
          \/ isZ (productId device) 0xb901 \/ isZ (productId device) 0xc903)
      /\ isZ (usagePage device) 0xff43.
Proof.
  unfold isLitraDevice. rewrite includes_PRODUCT_IDS.
  rewrite !andb_true_iff, !orb_true_iff, !strictEq_true_iff.
  unfold VENDOR_ID, USAGE_PAGE. tauto.
Qed.

(** X2: [getDeviceTypeByProductId] returns a device type exactly for the
    product ids that [PRODUCT_IDS] includes, so its ["Unknown device type"]
    branch cannot be reached with the product id of a descriptor that
    [isLitraDevice] accepted. *)
Theorem getDeviceTypeByProductId_total_on_PRODUCT_IDS (x : number) :
  ((exists deviceType, getDeviceTypeByProductId x = Normal deviceType)
   <-> includes PRODUCT_IDS x = true)
  /\ (forall device : HIDDevice,
        isLitraDevice device = true ->
        getDeviceTypeByProductId (productId device)
        <> Throw "Unknown device type").
Proof.
  split; [split|].
  - intros [deviceType H]. rewrite includes_PRODUCT_IDS.
    revert H. unfold getDeviceTypeByProductId.
    destruct (strictEqAt_PRODUCT_IDS x) as (-> & -> & -> & ->).
    destruct (strictEq x (of_Z 0xc900)); [reflexivity|]. cbn [orb].
    destruct (_ || _); [reflexivity|discriminate].
  - intros H. eexists. apply (getDeviceTypeByProductId_included x H).
  - intros device H.
    unfold isLitraDevice in H.
    apply andb_true_iff in H as [H _]. apply andb_true_iff in H as [_ H].
    rewrite (getDeviceTypeByProductId_included _ H). discriminate.
Qed.





(** ** Queries *)

Ltac step_writeFrame :=
  erewrite bind_normal by (apply writeFrame_run; simpl; lia).

Ltac flatten_log :=
  unfold wrote, didRead; cbn [responses reads log];
  rewrite <- ?app_assoc; cbn [app].

Lemma getTemperatureInKelvin_run (device : Device) (h : HID) :
  getTemperatureInKelvin device h
  = (Normal (match nth_error (responses h (reads h)) 4,
                   nth_error (responses h (reads h)) 5 with
             | Some high, Some low => of_Z (high * 256 + low)
             | _, _ => NaN
             end),
     didRead (wrote h (frame [0x11; 0xff; 0x06; 0x81]))).
Proof. unfold getTemperatureInKelvin. step_writeFrame. reflexivity. Qed.

Lemma getBrightnessInLumen_run (device : Device) (h : HID) :
  getBrightnessInLumen device h
  = (Normal (nth_error (responses h (reads h)) 5),
     didRead (wrote h (frame [0x11; 0xff; 0x06; 0x31]))).
Proof. unfold getBrightnessInLumen. step_writeFrame. reflexivity. Qed.

Lemma nth_error_short {A} (l : list A) (i : nat) :
  (List.length l <= i)%nat -> nth_error l i = None.
Proof. apply nth_error_None. Qed.

(** X5: [isOn] writes the power query (0x11 0xff 0x06 0x01 and sixteen
    zero bytes), reads one response and returns without throwing; it
    answers [true] exactly when the byte at offset 4 of the response is 1,
    so a response of fewer than five bytes reads as off. *)
Theorem isOn_reads_power_byte (device : Device) (h : HID) :
  let data := responses h (reads h) in
  exists on : bool,
    isOn device h
    = (Normal on,
       mkHID (responses h) (S (reads h))
             (log h ++ [Written [0x11; 0xff; 0x06; 0x01; 0; 0; 0; 0; 0; 0;
                                 0; 0; 0; 0; 0; 0; 0; 0; 0; 0];
                        ReadSync data]))
    /\ (on = true <-> reportsOn data)
    /\ ((List.length data < 5)%nat -> on = false).
Proof.
  intros data. rewrite isOn_run. fold data. eexists. split; [|split].
  - flatten_log. reflexivity.
  - unfold reportsOn. destruct (nth_error data 4) as [b|]; [|split; discriminate].
    rewrite Z.eqb_eq. split; [now intros ->|now intros [= ->]].
  - intros Hshort. rewrite (nth_error_short data 4) by lia. reflexivity.
Qed.

(** X6: [getTemperatureInKelvin] writes the temperature query (0x11 0xff
    0x06 0x81 and sixteen zero bytes), reads one response and returns
    without throwing: the integer [high * 256 + low] of the bytes at
    offsets 4 and 5, and [NaN] when the response has fewer than six
    bytes. *)
Theorem getTemperatureInKelvin_decodes (device : Device) (h : HID) :
  let data := responses h (reads h) in
  exists temperature : number,
    getTemperatureInKelvin device h
    = (Normal temperature,
       mkHID (responses h) (S (reads h))
             (log h ++ [Written [0x11; 0xff; 0x06; 0x81; 0; 0; 0; 0; 0; 0;
                                 0; 0; 0; 0; 0; 0; 0; 0; 0; 0];
                        ReadSync data]))
    /\ (forall high low : Z,
          carries data high low -> temperature = of_Z (high * 256 + low))
    /\ ((List.length data < 6)%nat -> temperature = NaN).
Proof.
  intros data. rewrite getTemperatureInKelvin_run. fold data.
  eexists. split; [|split].
  - flatten_log. reflexivity.
  - intros high low [-> ->]. reflexivity.
  - intros Hshort. rewrite (nth_error_short data 5) by lia.
    destruct (nth_error data 4); reflexivity.
Qed.

(** X7: [getBrightnessInLumen] writes the brightness query (0x11 0xff 0x06
    0x31 and sixteen zero bytes), reads one response and returns the byte
    at offset 5 alone ([undefined] for a response of fewer than six bytes).
    Unlike the temperature it ignores the byte at offset 4: on a response
    that carries the two bytes of [integerToBytes n] it returns [n mod 256],
    which is [n] exactly when [n <= 255]. *)
Theorem getBrightnessInLumen_low_byte (device : Device) (h : HID) :
  let data := responses h (reads h) in
  exists brightness : option Z,
    getBrightnessInLumen device h
    = (Normal brightness,
       mkHID (responses h) (S (reads h))
             (log h ++ [Written [0x11; 0xff; 0x06; 0x31; 0; 0; 0; 0; 0; 0;
                                 0; 0; 0; 0; 0; 0; 0; 0; 0; 0];
                        ReadSync data]))
    /\ brightness = nth_error data 5
    /\ ((List.length data < 6)%nat -> brightness = None)
    /\ (forall n high low : Z,
          0 <= n ->
          integerToBytes n = [high; low] ->
          carries data high low ->
          brightness = Some (n mod 256)
          /\ (brightness = Some n <-> n <= 255)).
Proof.
  intros data. rewrite getBrightnessInLumen_run. fold data.
  eexists. split; [|split; [|split]].
  - flatten_log. reflexivity.
  - reflexivity.
  - intros Hshort. apply nth_error_short. lia.
  - intros n high low Hn [= <- <-] [_ Hlow]. rewrite Hlow.
    split; [reflexivity|].
    pose proof (Z.mod_pos_bound n 256 ltac:(lia)) as Hb.
    split.
    + intros [= E]. lia.
    + intros Hle. f_equal. apply Z.mod_small. lia.
Qed.

(** ** RGB *)

(** X8: [setRGBColor] validates nothing and never throws: for all channel
    values it writes three fixed frames, then the colour frame with the
    channels at offsets 6, 7 and 8 as they were given, reads one response,
    which it discards, and writes the same colour frame again.  The frames
    it writes are 20 bytes within 0..255 exactly when the three channels
    are. *)
Theorem setRGBColor_events (device : Device) (red green blue : Z) (h : HID) :
  let colour := [0x11; 0xff; 0x0b; 0x1f; 0; 0; red; green; blue; 0;
                 0; 0; 0; 0; 0; 0; 1; 0; 0; 0] in
  let added :=
    [Written [0x11; 0xff; 0x0b; 0x5f; 1; 1; 0; 0; 0; 0;
              0; 0; 0; 0; 0; 0; 0; 0; 0; 0];
     Written [0x11; 0xff; 0x0a; 0x4b; 1; 0; 0; 0; 0; 0;
              0; 0; 0; 0; 0; 0; 0; 0; 0; 0];
     Written [0x11; 0xff; 0x0a; 0x2e; 0; 100; 0; 0; 0; 0;
              0; 0; 0; 0; 0; 0; 0; 0; 0; 0];
     Written colour;
     ReadSync (responses h (reads h));
     Written colour] in
  setRGBColor device red green blue h
  = (Normal tt, mkHID (responses h) (S (reads h)) (log h ++ added))
  /\ (Forall isFrame (writtenFrames added)
      <-> isByte red /\ isByte green /\ isByte blue).
Proof.
  intros colour added. split.
  - unfold setRGBColor. do 4 step_writeFrame.
    unfold bind at 1, hid_readSync at 1.
    rewrite writeFrame_run by (simpl; lia).
    flatten_log. reflexivity.
  - subst added colour. cbn [writtenFrames flat_map app]. split.
    + intros H. inversion_clear H as [|? ? _ H1].
      inversion_clear H1 as [|? ? _ H2]. inversion_clear H2 as [|? ? _ H3].
      inversion_clear H3 as [|? ? [_ Hc] _].
      do 6 (inversion_clear Hc as [|? ? _ Hd]; rename Hd into Hc).
      inversion_clear Hc as [|? ? Hr Hc1].
      inversion_clear Hc1 as [|? ? Hg Hc2].
      inversion_clear Hc2 as [|? ? Hb _].
      split; [|split]; assumption.
    + intros (Hr & Hg & Hb).
      repeat (apply Forall_cons; [split; [reflexivity|]|]);
        try apply Forall_nil;
        repeat (apply Forall_cons; [first [assumption | unfold isByte; lia]|]);
        apply Forall_nil.
Qed.

(** ** What the setters write *)

Lemma allowed_temperature_bounds (device : Device) (n : Z) :
  In n (getAllowedTemperaturesInKelvinForDevice device) ->
  2700 <= n <= 6500.
Proof.
  assert (E : getAllowedTemperaturesInKelvinForDevice device
              = multiplesWithinRange 100 2700 6500)
    by (destruct device as [[|] ?]; reflexivity).
  rewrite E. intros H. now apply multiplesWithinRange_In in H.
Qed.

Lemma brightness_bounds_bytes (device : Device) :
  0 <= getMinimumBrightnessInLumenForDevice device
  /\ getMaximumBrightnessInLumenForDevice device <= 65535.
Proof.
  unfold getMinimumBrightnessInLumenForDevice,
    getMaximumBrightnessInLumenForDevice.
  destruct (type device); simpl; lia.
Qed.

Lemma setTemperatureInKelvin_outcome device x h :
  (exists message, setTemperatureInKelvin device x h = (Throw message, h))
  \/ (exists n : Z,
        isZ x n
        /\ In n (getAllowedTemperaturesInKelvinForDevice device)
        /\ setTemperatureInKelvin device x h
           = (Normal tt,
              wrote h ([0x11; 0xff; 0x06; 0x9c; n / 256; n mod 256]
                       ++ repeat 0 14))).
Proof.
  destruct (isInteger x) eqn:Ei.
  - pose proof (isInteger_isZ x Ei) as Hn.
    destruct (includes (getAllowedTemperaturesInKelvinForDevice device) x)
      eqn:Ea.
    + right. exists (integerValue x).
      apply (isZ_includes x _ Hn) in Ea.
      split; [exact Hn|split; [exact Ea|]].
      now apply setTemperatureInKelvin_allowed.
    + left. eexists. apply (setTemperatureInKelvin_not_allowed _ _ _ _ Hn).
      intros Hin. apply (isZ_includes x _ Hn) in Hin. congruence.
  - left. eexists. now apply setTemperatureInKelvin_not_integer.
Qed.

Lemma setBrightnessInLumen_outcome device x h :
  (exists message, setBrightnessInLumen device x h = (Throw message, h))
  \/ (exists n : Z,
        isZ x n
        /\ getMinimumBrightnessInLumenForDevice device <= n
           <= getMaximumBrightnessInLumenForDevice device
        /\ setBrightnessInLumen device x h
           = (Normal tt,
              wrote h ([0x11; 0xff; 0x06; 0x4c; n / 256; n mod 256]
                       ++ repeat 0 14))).
Proof.
  destruct (isInteger x) eqn:Ei.
  - pose proof (isInteger_isZ x Ei) as Hn.
    set (n := integerValue x) in *.
    destruct (Z_lt_dec n (getMinimumBrightnessInLumenForDevice device))
      as [Hlow|Hlow];
      [|destruct (Z_lt_dec (getMaximumBrightnessInLumenForDevice device) n)
          as [Hhigh|Hhigh]].
    + left. eexists.
      apply (setBrightnessInLumen_out_of_range _ _ _ _ Hn). now left.
    + left. eexists.
      apply (setBrightnessInLumen_out_of_range _ _ _ _ Hn). now right.
    + right. exists n. split; [exact Hn|split; [lia|]].
      apply setBrightnessInLumen_in_range; [exact Hn|lia].
  - left. eexists. now apply setBrightnessInLumen_not_integer.
Qed.

Lemma setBrightnessPercentage_outcome device x h :
  (exists message, setBrightnessPercentage device x h = (Throw message, h))
  \/ (exists n : Z,
        getMinimumBrightnessInLumenForDevice device <= n
        <= getMaximumBrightnessInLumenForDevice device
        /\ setBrightnessPercentage device x h
           = (Normal tt,
              wrote h ([0x11; 0xff; 0x06; 0x4c; n / 256; n mod 256]
                       ++ repeat 0 14))).
Proof.
  unfold setBrightnessPercentage.
  destruct (_ || _).
  - left. eexists. reflexivity.
  - match goal with
    | |- context [setBrightnessInLumen device ?b h] =>
        destruct (setBrightnessInLumen_outcome device b h)
          as [Hthrow|(n & _ & Hn & Hrun)]
    end.
    + left. exact Hthrow.
    + right. exists n. split; assumption.
Qed.

(** X9: a setter that returns has made exactly one write and no read.
    The frame of [setTemperatureInKelvin] carries an allowed temperature of
    the device, the frame of [setBrightnessInLumen] and of
    [setBrightnessPercentage] a brightness between the minimum and the
    maximum of the device: no value outside the range of the device is ever
    written, whatever the number passed. *)
Theorem setters_write_only_valid_values
  (device : Device) (x : number) (h h' : HID) :
  (setTemperatureInKelvin device x h = (Normal tt, h') ->
   exists n : Z,
     isZ x n
     /\ In n (getAllowedTemperaturesInKelvinForDevice device)
     /\ h' = wrote h ([0x11; 0xff; 0x06; 0x9c; n / 256; n mod 256]
                      ++ repeat 0 14))
  /\ (setBrightnessInLumen device x h = (Normal tt, h') ->
      exists n : Z,
        isZ x n
        /\ getMinimumBrightnessInLumenForDevice device <= n
           <= getMaximumBrightnessInLumenForDevice device
        /\ h' = wrote h ([0x11; 0xff; 0x06; 0x4c; n / 256; n mod 256]
                         ++ repeat 0 14))
  /\ (setBrightnessPercentage device x h = (Normal tt, h') ->
      exists n : Z,
        getMinimumBrightnessInLumenForDevice device <= n
        <= getMaximumBrightnessInLumenForDevice device
        /\ h' = wrote h ([0x11; 0xff; 0x06; 0x4c; n / 256; n mod 256]
                         ++ repeat 0 14)).
Proof.
  split; [|split]; intros Hrun.
  - destruct (setTemperatureInKelvin_outcome device x h)
      as [[message E]|(n & Hn & Hin & E)]; rewrite E in Hrun;
      [discriminate|].
    exists n. injection Hrun as <-. auto.
  - destruct (setBrightnessInLumen_outcome device x h)
      as [[message E]|(n & Hn & Hin & E)]; rewrite E in Hrun;
      [discriminate|].
    exists n. injection Hrun as <-. auto.
  - destruct (setBrightnessPercentage_outcome device x h)
      as [[message E]|(n & Hin & E)]; rewrite E in Hrun;
      [discriminate|].
    exists n. injection Hrun as <-. auto.
Qed.

(** ** The wire format as an invariant *)

Ltac solve_isFrame :=
  split; [reflexivity | repeat constructor; unfold isByte; lia].

Lemma performs_write (h : HID) (values : list Z) :
  isFrame values -> performs h (wrote h values) 1 0.
Proof.
  intros Hf. exists [Written values].
  split; [|split; [|split]]; try reflexivity.
  - unfold extends, wrote, readCount; simpl.
    split; [|split]; try reflexivity. lia.
  - simpl. repeat constructor; apply Hf.
Qed.

Lemma performs_query (h : HID) (values : list Z) :
  isFrame values -> performs h (didRead (wrote h values)) 1 1.
Proof.
  intros Hf. exists [Written values; ReadSync (responses h (reads h))].
  split; [|split; [|split]]; try reflexivity.
  - unfold extends, wrote, didRead, readCount; simpl. rewrite <- app_assoc.
    split; [|split]; try reflexivity. lia.
  - simpl. repeat constructor; apply Hf.
Qed.

Lemma performs_query_write (h : HID) (query values : list Z) :
  isFrame query -> isFrame values ->
  performs h (wrote (didRead (wrote h query)) values) 2 1.
Proof.
  intros Hq Hf.
  exists [Written query; ReadSync (responses h (reads h)); Written values].
  split; [|split; [|split]]; try reflexivity.
  - unfold extends, wrote, didRead, readCount; simpl.
    rewrite <- !app_assoc. split; [|split]; try reflexivity. lia.
  - simpl. repeat constructor; first [apply Hq | apply Hf].
Qed.

Lemma parameters_isFrame (opcode n : Z) :
  isByte opcode -> 0 <= n <= 65535 ->
  isFrame ([0x11; 0xff; 0x06; opcode; n / 256; n mod 256] ++ repeat 0 14).
Proof.
  intros Ho Hn.
  pose proof (Z.mod_pos_bound n 256 ltac:(lia)) as Hlow.
  assert (Hhigh : 0 <= n / 256 <= 255).
  { split; [apply Z.div_pos; lia|].
    apply Z.lt_succ_r, Z.div_lt_upper_bound; lia. }
  split; [reflexivity|].
  repeat (apply Forall_cons; [first [assumption | unfold isByte; lia]|]).
  apply Forall_nil.
Qed.

Lemma toggle_run (device : Device) (h : HID) :
  exists values,
    (values = frame [0x11; 0xff; 0x06; 0x1c; 0x01]
     \/ values = frame [0x11; 0xff; 0x06; 0x1c; 0x00])
    /\ toggle device h
       = (Normal tt,
          wrote (didRead (wrote h (frame [0x11; 0xff; 0x06; 0x01]))) values).
Proof.
  unfold toggle. rewrite (bind_normal _ _ _ _ _ (isOn_run device h)).
  destruct (match nth_error (responses h (reads h)) 4 with
            | Some b => b =? 1
            | None => false
            end).
  - eexists. split; [right; reflexivity|].
    apply (turnOn_turnOff_frames_aux device).
  - eexists. split; [left; reflexivity|].
    apply (turnOn_turnOff_frames_aux device).
Qed.

(** X10: every operation on the power, the temperature and the brightness
    only appends to the exchange with the device, and every frame it writes
    is 20 bytes, each within 0..255.  [turnOn] and [turnOff] make one write
    and no read; [isOn], [getTemperatureInKelvin] and [getBrightnessInLumen]
    one write and one read; [toggle] two writes and one read; a setter
    either leaves the transport untouched or makes one write and no read. *)
Theorem operations_keep_the_wire_format (device : Device) (h : HID) :
  performs h (snd (turnOn device h)) 1 0
  /\ performs h (snd (turnOff device h)) 1 0
  /\ performs h (snd (isOn device h)) 1 1
  /\ performs h (snd (toggle device h)) 2 1
  /\ performs h (snd (getTemperatureInKelvin device h)) 1 1
  /\ performs h (snd (getBrightnessInLumen device h)) 1 1
  /\ (forall x : number,
        snd (setTemperatureInKelvin device x h) = h
        \/ performs h (snd (setTemperatureInKelvin device x h)) 1 0)
  /\ (forall x : number,
        snd (setBrightnessInLumen device x h) = h
        \/ performs h (snd (setBrightnessInLumen device x h)) 1 0)
  /\ (forall x : number,
        snd (setBrightnessPercentage device x h) = h
        \/ performs h (snd (setBrightnessPercentage device x h)) 1 0).
Proof.
  pose proof (brightness_bounds_bytes device) as Hb.
  destruct (turnOn_turnOff_frames_aux device h) as [Eon Eoff].
  split; [rewrite Eon; apply performs_write; solve_isFrame|].
  split; [rewrite Eoff; apply performs_write; solve_isFrame|].
  split; [rewrite isOn_run; apply performs_query; solve_isFrame|].
  split.
  { destruct (toggle_run device h) as (values & Hv & ->).
    apply performs_query_write; [solve_isFrame|].
    destruct Hv as [-> | ->]; solve_isFrame. }
  split; [rewrite getTemperatureInKelvin_run; apply performs_query;
          solve_isFrame|].
  split; [rewrite getBrightnessInLumen_run; apply performs_query;
          solve_isFrame|].
  split; [|split]; intros x.
  - destruct (setTemperatureInKelvin_outcome device x h)
      as [[message ->]|(n & _ & Hin & ->)]; [left; reflexivity|right].
    apply performs_write, parameters_isFrame; [unfold isByte; lia|].
    apply allowed_temperature_bounds in Hin. lia.
  - destruct (setBrightnessInLumen_outcome device x h)
      as [[message ->]|(n & _ & Hin & ->)]; [left; reflexivity|right].
    apply performs_write, parameters_isFrame; [unfold isByte; lia|lia].
  - destruct (setBrightnessPercentage_outcome device x h)
      as [[message ->]|(n & Hin & ->)]; [left; reflexivity|right].
    apply performs_write, parameters_isFrame; [unfold isByte; lia|lia].
Qed.

(** ** Setting, then reading back *)

(** X11: setting an allowed temperature and then querying it, on a device
    that answers the query with the two parameter bytes of the frame it was
    sent, returns the temperature that was set; the exchange is the set
    frame, the query frame and one read. *)
Theorem temperature_set_then_get (device : Device) (t : number) (n : Z)
  (h : HID) :
  isZ t n ->
  In n (getAllowedTemperaturesInKelvinForDevice device) ->
  carries (responses h (reads h)) (n / 256) (n mod 256) ->
  (setTemperatureInKelvin device t ;; getTemperatureInKelvin device) h
  = (Normal (of_Z n),
     mkHID (responses h) (S (reads h))
           (log h
            ++ [Written ([0x11; 0xff; 0x06; 0x9c; n / 256; n mod 256]
                         ++ repeat 0 14);
                Written ([0x11; 0xff; 0x06; 0x81] ++ repeat 0 16);
                ReadSync (responses h (reads h))])).
Proof.
  intros Ht Hin [H4 H5].
  rewrite (bind_normal _ _ _ _ _
             (setTemperatureInKelvin_allowed device t n h Ht Hin)).
  rewrite getTemperatureInKelvin_run.
  unfold wrote at 1 2 3 4; cbn [responses reads].
  rewrite H4, H5. flatten_log.
  do 2 f_equal. unfold of_Z. do 2 f_equal.
  pose proof (Z.div_mod n 256 ltac:(lia)). lia.
Qed.

(** X12: setting a brightness within the range of the device and then
    querying it, on a device that answers the query with the two parameter
    bytes of the frame it was sent, returns the low byte only.  On a Glow
    that is the brightness that was set; on a Beam it is so exactly up to
    255, and the brightnesses from 256 to the maximum 400 read back
    reduced by 256. *)
Theorem brightness_set_then_get (device : Device) (b : number) (n : Z)
  (h : HID) :
  isZ b n ->
  getMinimumBrightnessInLumenForDevice device <= n
  <= getMaximumBrightnessInLumenForDevice device ->
  carries (responses h (reads h)) (n / 256) (n mod 256) ->
  (setBrightnessInLumen device b ;; getBrightnessInLumen device) h
  = (Normal (Some (n mod 256)),
     mkHID (responses h) (S (reads h))
           (log h
            ++ [Written ([0x11; 0xff; 0x06; 0x4c; n / 256; n mod 256]
                         ++ repeat 0 14);
                Written ([0x11; 0xff; 0x06; 0x31] ++ repeat 0 16);
                ReadSync (responses h (reads h))]))
  /\ (type device = LitraGlow -> n mod 256 = n)
  /\ (n mod 256 = n <-> n <= 255)
  /\ (255 < n -> n mod 256 = n - 256).
Proof.
  intros Hb Hn [H4 H5].
  pose proof (brightness_bounds_bytes device) as [Hmin Hmax].
  assert (Hmax' : getMaximumBrightnessInLumenForDevice device <= 400).
  { unfold getMaximumBrightnessInLumenForDevice.
    destruct (type device); simpl; lia. }
  pose proof (Z.mod_pos_bound n 256 ltac:(lia)) as Hlow.
  split; [|split; [|split]].
  - rewrite (bind_normal _ _ _ _ _
               (setBrightnessInLumen_in_range device b n h Hb Hn)).
    rewrite getBrightnessInLumen_run.
    unfold wrote at 1 2 3; cbn [responses reads].
    rewrite H5. flatten_log. reflexivity.
  - intros Hglow. apply Z.mod_small.
    unfold getMaximumBrightnessInLumenForDevice,
      getMinimumBrightnessInLumenForDevice in *.
    rewrite Hglow in *. simpl in *. lia.
  - split; [lia|]. intros Hle. apply Z.mod_small. lia.
  - intros Hbig. symmetry. apply (Z.mod_unique n 256 1); lia.
Qed.

(** ** The further properties at concrete inputs *)

(** The Beam descriptor is accepted; the one of another product, on
    another usage page, is not. *)
Lemma isLitraDevice_iff_witness :
  isLitraDevice beamDescriptor = true
  /\ isLitraDevice otherDescriptor <> true.
Proof.
  split.
  - apply (proj2 (isLitraDevice_iff beamDescriptor)).
    simpl. split; [Qcompare|split; [|Qcompare]].
    right. right. left. Qcompare.
  - intros H. apply (proj1 (isLitraDevice_iff otherDescriptor)) in H.
    destruct H as (_ & _ & H). revert H. simpl. Qcompare.
Defined.

Lemma getDeviceTypeByProductId_total_on_PRODUCT_IDS_witness :
  (exists deviceType, getDeviceTypeByProductId (of_Z 0xc903) = Normal deviceType)
  /\ getDeviceTypeByProductId (productId beamDescriptor)
     <> Throw "Unknown device type".
Proof.
  split.
  - apply (proj2 (proj1 (getDeviceTypeByProductId_total_on_PRODUCT_IDS
                           (of_Z 0xc903)))).
    reflexivity.
  - apply (proj2 (getDeviceTypeByProductId_total_on_PRODUCT_IDS NaN)
             beamDescriptor).
    reflexivity.
Defined.



(** A response of three bytes reads as off. *)
Lemma isOn_reads_power_byte_witness :
  fst (isOn glow (fresh [0x11; 0xff; 0x06])) = Normal false.
Proof.
  destruct (isOn_reads_power_byte glow (fresh [0x11; 0xff; 0x06]))
    as (on & E & _ & Hshort).
  rewrite E. cbn [fst]. f_equal. apply Hshort. simpl. lia.
Defined.

(** 0x0a 0x8c decodes to 2700; a response of three bytes to [NaN]. *)
Lemma getTemperatureInKelvin_decodes_witness :
  fst (getTemperatureInKelvin glow
         (fresh [0x11; 0xff; 0x06; 0x81; 0x0a; 0x8c]))
  = Normal (of_Z 2700)
  /\ fst (getTemperatureInKelvin glow (fresh [0x11; 0xff; 0x06]))
     = Normal NaN.
Proof.
  split.
  - destruct (getTemperatureInKelvin_decodes glow
                (fresh [0x11; 0xff; 0x06; 0x81; 0x0a; 0x8c]))
      as (temperature & E & Hdecode & _).
    rewrite E. cbn [fst]. f_equal. apply (Hdecode 0x0a 0x8c).
    split; reflexivity.
  - destruct (getTemperatureInKelvin_decodes glow
                (fresh [0x11; 0xff; 0x06]))
      as (temperature & E & _ & Hshort).
    rewrite E. cbn [fst]. f_equal. apply Hshort. simpl. lia.
Defined.

(** A response that carries 400 as 0x01 0x90 reads as 144. *)
Lemma getBrightnessInLumen_low_byte_witness :
  fst (getBrightnessInLumen beam
         (fresh [0x11; 0xff; 0x06; 0x31; 0x01; 0x90]))
  = Normal (Some 144)
  /\ fst (getBrightnessInLumen beam (fresh [0x11; 0xff; 0x06]))
     = Normal None.
Proof.
  split.
  - destruct (getBrightnessInLumen_low_byte beam
                (fresh [0x11; 0xff; 0x06; 0x31; 0x01; 0x90]))
      as (brightness & E & _ & _ & Hlow).
    rewrite E. cbn [fst]. f_equal.
    apply (Hlow 400 0x01 0x90); [lia|reflexivity|split; reflexivity].
  - destruct (getBrightnessInLumen_low_byte beam (fresh [0x11; 0xff; 0x06]))
      as (brightness & E & _ & Hshort & _).
    rewrite E. cbn [fst]. f_equal. apply Hshort. simpl. lia.
Defined.

Lemma setRGBColor_events_witness :
  log (snd (setRGBColor beam 255 0 128 (fresh [1; 2; 3])))
  = [Written [0x11; 0xff; 0x0b; 0x5f; 1; 1; 0; 0; 0; 0;
              0; 0; 0; 0; 0; 0; 0; 0; 0; 0];
     Written [0x11; 0xff; 0x0a; 0x4b; 1; 0; 0; 0; 0; 0;
              0; 0; 0; 0; 0; 0; 0; 0; 0; 0];
     Written [0x11; 0xff; 0x0a; 0x2e; 0; 100; 0; 0; 0; 0;
              0; 0; 0; 0; 0; 0; 0; 0; 0; 0];
     Written [0x11; 0xff; 0x0b; 0x1f; 0; 0; 255; 0; 128; 0;
              0; 0; 0; 0; 0; 0; 1; 0; 0; 0];
     ReadSync [1; 2; 3];
     Written [0x11; 0xff; 0x0b; 0x1f; 0; 0; 255; 0; 128; 0;
              0; 0; 0; 0; 0; 0; 1; 0; 0; 0]]
  /\ ~ Forall isFrame
         (writtenFrames (log (snd (setRGBColor beam 300 0 0 (fresh []))))).
Proof.
  split.
  - rewrite (proj1 (setRGBColor_events beam 255 0 128 (fresh [1; 2; 3]))).
    reflexivity.
  - rewrite (proj1 (setRGBColor_events beam 300 0 0 (fresh []))).
    intros H.
    apply (proj1 (proj2 (setRGBColor_events beam 300 0 0 (fresh [])))) in H.
    destruct H as [[_ H] _]. lia.
Defined.

(** 50.5 % of a Glow is written as 136. *)
Lemma setters_write_only_valid_values_witness :
  let h' := wrote (fresh []) [0x11; 0xff; 0x06; 0x4c; 0; 136; 0; 0; 0; 0;
                              0; 0; 0; 0; 0; 0; 0; 0; 0; 0] in
  setBrightnessPercentage glow (Fin (101 # 2)) (fresh []) = (Normal tt, h')
  /\ exists n : Z,
       20 <= n <= 250
       /\ h' = wrote (fresh []) ([0x11; 0xff; 0x06; 0x4c; n / 256; n mod 256]
                                 ++ repeat 0 14).
Proof.
  intros h'.
  assert (H : setBrightnessPercentage glow (Fin (101 # 2)) (fresh [])
              = (Normal tt, h')) by reflexivity.
  split; [exact H|].
  exact (proj2 (proj2 (setters_write_only_valid_values
                         glow (Fin (101 # 2)) (fresh []) h')) H).
Defined.

Lemma temperature_set_then_get_witness :
  fst ((setTemperatureInKelvin glow (of_Z 2700) ;;
        getTemperatureInKelvin glow)
         (fresh [0x11; 0xff; 0x06; 0x81; 0x0a; 0x8c]))
  = Normal (of_Z 2700).
Proof.
  rewrite (temperature_set_then_get glow (of_Z 2700) 2700
             (fresh [0x11; 0xff; 0x06; 0x81; 0x0a; 0x8c])).
  - reflexivity.
  - simpl. reflexivity.
  - vm_compute. left. reflexivity.
  - split; reflexivity.
Defined.

(** 400 set on a Beam reads back as 144. *)
Lemma brightness_set_then_get_witness :
  fst ((setBrightnessInLumen beam (of_Z 400) ;;
        getBrightnessInLumen beam)
         (fresh [0x11; 0xff; 0x06; 0x31; 0x01; 0x90]))
  = Normal (Some 144).
Proof.
  rewrite (proj1 (brightness_set_then_get beam (of_Z 400) 400
                    (fresh [0x11; 0xff; 0x06; 0x31; 0x01; 0x90])
                    ltac:(simpl; reflexivity)
                    ltac:(solve_brightness_bounds)
                    ltac:(split; reflexivity))).
  reflexivity.
Defined.
